(** * psfs: a process tree exposed as a file system

    Shallow embedding of [psfs.py] (class [PsFS]) and of the part of
    [procpy.py] it relies on, followed by the properties of the path
    codec, of attribute rendering and of the five file-system callbacks
    [readdir], [getattr], [open], [read] and [rmdir].

    Python [str] values are [string]s (Python 2 byte strings), Python
    integers are [Z].  Calls that reach outside the interpreter (the
    process-table reader of [procpy] and [os.system]) are recorded in an
    event trace; exceptions are explicit results. *)

From Stdlib Require Import ZArith NArith List Bool Ascii String Lia.
Import ListNotations.

Local Open Scope string_scope.
Local Open Scope Z_scope.

(* ================================================================== *)
(** ** Python strings *)

Module PyStr.

(** [s.split('/')]: never empty, one more field than separators. *)
Fixpoint split (s : string) : list string :=
  match s with
  | EmptyString => [EmptyString]
  | String c s' =>
      if Ascii.eqb c "/" then EmptyString :: split s'
      else match split s' with
           | h :: t => String c h :: t
           | [] => [String c EmptyString]
           end
  end.

(** [sep.join(l)] *)
Fixpoint join (sep : string) (l : list string) : string :=
  match l with
  | [] => EmptyString
  | [x] => x
  | x :: rest => x ++ sep ++ join sep rest
  end.

(** [c * n] for a one-character string *)
Fixpoint replicate (n : nat) (c : ascii) : string :=
  match n with
  | O => EmptyString
  | S n' => String c (replicate n' c)
  end.

(** Decimal digit for a value below ten. *)
Definition digit_char (d : N) : ascii := ascii_of_N (48 + d).

(** Value of a decimal digit character. *)
Definition digit_val (c : ascii) : N := N_of_ascii c - 48.

Fixpoint digits_fuel (fuel : nat) (n : N) : string :=
  match fuel with
  | O => EmptyString
  | S f =>
      if (n <? 10)%N then String (digit_char n) EmptyString
      else digits_fuel f (n / 10)%N
             ++ String (digit_char (n mod 10)%N) EmptyString
  end.

(** Decimal numeral of a natural number, no leading zero. *)
Definition digits (n : N) : string :=
  digits_fuel (S (N.to_nat (N.log2 n))) n.

(** [str(z)] for a Python integer. *)
Definition str (z : Z) : string :=
  if z <? 0 then String "-" (digits (Z.to_N (- z)))
  else digits (Z.to_N z).

Fixpoint int_acc (acc : N) (s : string) : N :=
  match s with
  | EmptyString => acc
  | String c s' => int_acc (10 * acc + digit_val c)%N s'
  end.

(** [int(s)] for a string of decimal digits (the only strings the
    program converts are those captured by [\d+]). *)
Definition int (s : string) : Z := Z.of_N (int_acc 0%N s).

(** The conversion [%d] with an optional [0] flag and a minimum field
    width, as in ["%4d" % n] and ["%02d" % n]: the sign comes first,
    zeros are inserted between the sign and the digits, blanks before
    the sign. *)
Definition fmt_d (zero : bool) (width : nat) (z : Z) : string :=
  let sign := if z <? 0 then "-" else "" in
  let body := digits (Z.to_N (Z.abs z)) in
  let pad := (width - (String.length sign + String.length body))%nat in
  if zero then sign ++ replicate pad "0" ++ body
  else replicate pad " " ++ sign ++ body.

(** The one-character string ['\n']. *)
Definition newline : string := String "010" EmptyString.

End PyStr.

(* ================================================================== *)
(** ** The regular expression of [getPid]

    [re.search('\w+\((?P<num>\d+)\)', s)]: a backtracking matcher for
    the pattern, tried at every start position from left to right.
    Without the [LOCALE] and [UNICODE] flags [\w] is [[a-zA-Z0-9_]]
    and [\d] is [[0-9]]. *)

Module Re.

Definition is_digit (c : ascii) : bool :=
  let n := N_of_ascii c in ((48 <=? n) && (n <=? 57))%N.

Definition is_word (c : ascii) : bool :=
  let n := N_of_ascii c in
  (((48 <=? n) && (n <=? 57)) || ((65 <=? n) && (n <=? 90))
   || ((97 <=? n) && (n <=? 122)) || (n =? 95))%N.

Section Matcher.
Context {R : Type}.

(** [p+]: greedy, giving characters back one at a time when the
      rest of the pattern [k] fails.  [taken] is the text consumed so
      far by this repetition. *)
Fixpoint plus (p : ascii -> bool) (k : string -> string -> option R)
           (taken s : string) : option R :=
    match s with
    | EmptyString => None
    | String c s' =>
        if p c then
          let taken' := taken ++ String c EmptyString in
          match plus p k taken' s' with
          | Some r => Some r
          | None => k taken' s'
          end
        else None
    end.

(** A literal character. *)
Definition lit (c : ascii) (k : string -> option R) (s : string)
    : option R :=
    match s with
    | String c' s' => if Ascii.eqb c' c then k s' else None
    | EmptyString => None
    end.
End Matcher.

(** The whole pattern anchored at the head of [s]; the result is the
    text of group [num]. *)
Definition match_here (s : string) : option string :=
  plus is_word
    (fun _ s1 =>
       lit "(" (plus is_digit
                  (fun num s2 => lit ")" (fun _ => Some num) s2)
                  EmptyString) s1)
    EmptyString s.

(** [re.search]: the leftmost start position that matches. *)
Fixpoint search (s : string) : option string :=
  match match_here s with
  | Some num => Some num
  | None =>
      match s with
      | EmptyString => None
      | String _ s' => search s'
      end
  end.

End Re.

(* ================================================================== *)
(** ** Path codec: [getPid] and [makeProcName] *)

(** [PsFS.getPid]: the [AttributeError] raised by [.group] on a failed
    search is caught and turned into 0. *)
Definition getPid (procName : string) : Z :=
  match Re.search procName with
  | Some num => PyStr.int num
  | None => 0
  end.

(** [PsFS.makeProcName] *)
Definition makeProcName (procName : string) (pid : Z) : string :=
  procName ++ "(" ++ PyStr.str pid ++ ")".


(* ================================================================== *)
(** ** Process records and the snapshot provider *)

(** Modelled from the spec: the process record that the [_procpy]
    extension builds (a dictionary in the program); only the keys that
    [psfs.py] reads are kept.  [start] and [time] are tuples of
    integers, indexed by position. *)
Record proc : Type := mkProc {
  tid : Z;
  ppid : Z;
  ruser : string;
  cmd : string;
  cmdline : list string;
  pcpustr : string;
  pmemstr : string;
  ttynam : string;
  start : list Z;
  time : list Z
}.

(** Exceptions that can leave a callback: an out-of-range index and
    [procpy.error] ("PID not found", see the [ProcRT] docstring of
    [procpy.py]). *)
Inductive exn : Type :=
| IndexError
| ProcpyError.

(** Calls that leave the interpreter. *)
Inductive event : Type :=
| EvReadproc
| EvReadprocByPid (pid : Z)
| EvSystem (cmd : string).

Inductive result (A : Type) : Type :=
| Ret (a : A)
| Raise (e : exn).

Arguments Ret {A} a.
Arguments Raise {A} e.

(** A computation: the external calls it made, in order, and how it
    ended. *)
Definition M (A : Type) : Type := (list event * result A)%type.

Definition ret {A : Type} (a : A) : M A := ([], Ret a).

Definition raise {A : Type} (e : exn) : M A := ([], Raise e).

Definition emit (e : event) : M unit := ([e], Ret tt).

Definition bind {A B : Type} (m : M A) (f : A -> M B) : M B :=
  match m with
  | (t, Ret a) => let (t', r) := f a in ((t ++ t')%list, r)
  | (t, Raise e) => (t, Raise e)
  end.

Notation "x <- m ;; k" := (bind m (fun x => k))
  (at level 61, m at next level, right associativity).
Notation "m ;;; k" := (bind m (fun _ => k))
  (at level 61, right associativity).

Definition trace {A : Type} (m : M A) : list event := fst m.
Definition outcome {A : Type} (m : M A) : result A := snd m.

(** [l[-k]] for [k >= 1]. *)
Definition item_neg {A : Type} (l : list A) (k : nat) : M A :=
  match nth_error (rev l) (pred k) with
  | Some x => ret x
  | None => raise IndexError
  end.

(** [t[i]] on a tuple. *)
Definition item {A : Type} (t : list A) (i : nat) : M A :=
  match nth_error t i with
  | Some x => ret x
  | None => raise IndexError
  end.

(* ================================================================== *)
(** ** Values handed back to the dispatcher *)

Definition ENOENT : Z := 2.
Definition EINVAL : Z := 22.
Definition S_IFDIR : Z := 16384.  (* 0040000 *)
Definition S_IFREG : Z := 32768.  (* 0100000 *)
Definition O_WRONLY : Z := 1.
Definition O_ACCMODE : Z := 3.

(** [fuse.Direntry]: a name and a type, 0 until assigned. *)
Record Direntry : Type := mkDirentry {
  d_name : string;
  d_type : Z
}.

(** [PsStat] *)
Record PsStat : Type := mkStat {
  st_mode : Z;
  st_ino : Z;
  st_dev : Z;
  st_nlink : Z;
  st_uid : Z;
  st_gid : Z;
  st_size : Z;
  st_atime : Z;
  st_mtime : Z;
  st_ctime : Z;
  st_blocks : Z;
  st_blksize : Z;
  st_rdev : Z
}.

(** [PsStat.__init__] *)
Definition PsStat_init : PsStat := mkStat 0 0 0 0 0 0 0 0 0 0 0 0 0.

(** What a callback returns: an integer (0 or a negated errno), a
    string or a stat record. *)
Inductive pyval : Type :=
| PyInt (z : Z)
| PyString (s : string)
| PyStatV (st : PsStat).

(* ================================================================== *)
(** ** The class [PsFS] *)

Definition infoFiles : list string :=
  ["USER"; "PID"; "CPU"; "MEM"; "TTY"; "START"; "TIME"; "COMMAND"].

(** [for info in self.infoFiles: if x == info: ...]: the first
    attribute name equal to [x]. *)
Definition find_info (x : string) : option string :=
  List.find (fun info => String.eqb x info) infoFiles.

Section PsFS.

(** The two entry points of [procpy] that the class uses:
    [readproc()], the whole table, and [readproc_by_pid(pid)], which
    raises [procpy.error] when there is no such process. *)
Variable readproc : list proc.
Variable readproc_by_pid : Z -> option proc.

Definition getProcessInfo (pid : Z) : M proc :=
  emit (EvReadprocByPid pid) ;;;
  match readproc_by_pid pid with
  | Some p => ret p
  | None => raise ProcpyError
  end.

Definition getChildProcessInfo (pid : Z) : M (list proc) :=
  emit EvReadproc ;;;
  ret (List.filter (fun p => ppid p =? pid) readproc).

Definition isExist (parent child : string) : M bool :=
  let ppid' := getPid parent in
  let pid := getPid child in
  if (ppid' =? 0) || (pid =? 0) then ret false
  else
    info <- getProcessInfo pid ;;
    if negb (ppid info =? ppid') then ret false
    else ret true.

Definition getFileInfo (pid : Z) (info : string) : M string :=
  p <- getProcessInfo pid ;;
  if String.eqb info "PID" then ret (PyStr.str (tid p))
  else if String.eqb info "USER" then ret (ruser p)
  else if String.eqb info "CPU" then ret (pcpustr p)
  else if String.eqb info "MEM" then ret (pmemstr p)
  else if String.eqb info "TTY" then ret (ttynam p)
  else if String.eqb info "START" then
    h <- item (start p) 3 ;;
    m <- item (start p) 4 ;;
    ret (PyStr.fmt_d true 2 h ++ ":" ++ PyStr.fmt_d true 2 m)
  else if String.eqb info "TIME" then
    m <- item (time p) 0 ;;
    s <- item (time p) 1 ;;
    ret (PyStr.fmt_d false 4 m ++ ":" ++ PyStr.fmt_d true 2 s)
  else if String.eqb info "COMMAND" then ret (PyStr.join " " (cmdline p))
  else ret "".

(** [readdir] is a generator; the model collects what it yields. *)
Definition readdir (path : string) (offset : Z) : M (list Direntry) :=
  let head := [mkDirentry "." 0; mkDirentry ".." 0] in
  if String.eqb path "/" then
    ret (head ++ [mkDirentry "init(1)" S_IFDIR])%list
  else
    let files :=
      List.map (fun info => mkDirentry info (Z.lor S_IFREG 292)) infoFiles in
    let elem := PyStr.split path in
    last <- item_neg elem 1 ;;
    let pid := getPid last in
    results <- getChildProcessInfo pid ;;
    ret (head ++ files
           ++ List.map (fun child =>
                          mkDirentry (makeProcName (cmd child) (tid child))
                                     S_IFDIR)
                       results)%list.

Definition set_mode (st : PsStat) (v : Z) : PsStat :=
  mkStat v (st_ino st) (st_dev st) (st_nlink st) (st_uid st) (st_gid st)
         (st_size st) (st_atime st) (st_mtime st) (st_ctime st)
         (st_blocks st) (st_blksize st) (st_rdev st).

Definition set_ino (st : PsStat) (v : Z) : PsStat :=
  mkStat (st_mode st) v (st_dev st) (st_nlink st) (st_uid st) (st_gid st)
         (st_size st) (st_atime st) (st_mtime st) (st_ctime st)
         (st_blocks st) (st_blksize st) (st_rdev st).

Definition set_nlink (st : PsStat) (v : Z) : PsStat :=
  mkStat (st_mode st) (st_ino st) (st_dev st) v (st_uid st) (st_gid st)
         (st_size st) (st_atime st) (st_mtime st) (st_ctime st)
         (st_blocks st) (st_blksize st) (st_rdev st).

Definition set_size (st : PsStat) (v : Z) : PsStat :=
  mkStat (st_mode st) (st_ino st) (st_dev st) (st_nlink st) (st_uid st)
         (st_gid st) v (st_atime st) (st_mtime st) (st_ctime st)
         (st_blocks st) (st_blksize st) (st_rdev st).

Definition getattr (path : string) : M pyval :=
  let st := PsStat_init in
  let elem := PyStr.split path in
  last <- item_neg elem 1 ;;
  match find_info last with
  | Some info =>
      let st := set_mode st (Z.lor S_IFREG 292) in
      let st := set_ino st 0 in
      seg <- item_neg elem 2 ;;
      let pid := getPid seg in
      text <- getFileInfo pid info ;;
      let st := set_size st (Z.of_nat (String.length text) + 1) in
      ret (PyStatV st)
  | None =>
      if String.eqb path "/" then
        ret (PyStatV (set_nlink (set_mode st (Z.lor S_IFDIR 365)) 2))
      else if String.eqb path "/init(1)" then
        ret (PyStatV
               (set_nlink (set_ino (set_mode st (Z.lor S_IFDIR 365)) 1) 2))
      else
        parent <- item_neg elem 2 ;;
        ok <- isExist parent last ;;
        if ok then
          ret (PyStatV (set_nlink (set_mode st (Z.lor S_IFDIR 365)) 1))
        else ret (PyInt (- ENOENT))
  end.

Definition open (path : string) (flags : Z) : M pyval :=
  if String.eqb path "/" then ret (PyInt (- ENOENT))
  else
    let elem := PyStr.split path in
    last <- item_neg elem 1 ;;
    match find_info last with
    | Some _ => ret (PyInt 0)
    | None => ret (PyInt (- ENOENT))
    end.

Definition read (path : string) (size offset : Z) : M pyval :=
  if String.eqb path "/" then ret (PyInt (- ENOENT))
  else
    let elem := PyStr.split path in
    last <- item_neg elem 1 ;;
    match find_info last with
    | Some info =>
        seg <- item_neg elem 2 ;;
        let pid := getPid seg in
        if pid =? 0 then ret (PyInt (- ENOENT))
        else
          text <- getFileInfo pid info ;;
          ret (PyString (text ++ PyStr.newline))
    | None => ret (PyInt (- ENOENT))
    end.

Definition rmdir (path : string) : M pyval :=
  let elem := PyStr.split path in
  last <- item_neg elem 1 ;;
  if String.eqb last "init(1)" then ret (PyInt (- EINVAL))
  else
    let pid := getPid last in
    if pid =? 0 then ret (PyInt (- EINVAL))
    else
      let killcmd := "kill -9 " ++ PyStr.str pid in
      emit (EvSystem killcmd) ;;;
      ret (PyInt 0).

End PsFS.

(* ================================================================== *)
(** ** Reference notions taken from the specification *)

Module Spec.

(** The intersection of the byte range [[offset, offset+size)] with
    the data [s]. *)
Definition byte_range (s : string) (offset size : Z) : string :=
  let len := Z.of_nat (String.length s) in
  let lo := Z.max 0 offset in
  let hi := Z.min len (offset + size) in
  String.substring (Z.to_nat lo) (Z.to_nat (hi - lo)) s.

(** A numeral padded on the left with zeros up to [width] digits. *)
Definition zero_pad (width : nat) (n : Z) : string :=
  let body := PyStr.str n in
  PyStr.replicate (width - String.length body) "0" ++ body.

(** A numeral padded on the left with blanks up to [width] columns. *)
Definition blank_pad (width : nat) (n : Z) : string :=
  let body := PyStr.str n in
  PyStr.replicate (width - String.length body) " " ++ body.

(** [MMMM:SS] with both fields zero-padded. *)
Definition time_text (minutes seconds : Z) : string :=
  zero_pad 4 minutes ++ ":" ++ zero_pad 2 seconds.

(** An access mode that only reads. *)
Definition read_only (flags : Z) : bool := Z.land flags O_ACCMODE =? 0.

(** The segment naming process [pid] is a live directory under the
    segment [parent]: the root process directly under the root, or a
    process whose recorded parent is the one [parent] decodes to. *)
Definition live_directory (readproc_by_pid : Z -> option proc)
           (parent seg : string) : bool :=
  let pid := getPid seg in
  if (pid =? 1) && String.eqb parent "" then true
  else
    match readproc_by_pid pid with
    | Some p => negb (pid =? 0) && negb (getPid parent =? 0)
                && (ppid p =? getPid parent)
    | None => false
    end.

(** The path resolves to the root or to a live process directory. *)
Definition resolves_to_directory (readproc_by_pid : Z -> option proc)
           (path : string) : bool :=
  if String.eqb path "/" || String.eqb path "" then true
  else
    match rev (PyStr.split path) with
    | seg :: parent :: _ => live_directory readproc_by_pid parent seg
    | _ => false
    end.

(** The path resolves to an attribute file of a live process
    directory. *)
Definition resolves_to_attribute (readproc_by_pid : Z -> option proc)
           (path : string) : bool :=
  match rev (PyStr.split path) with
  | kind :: seg :: parent :: _ =>
      match find_info kind with
      | Some _ => live_directory readproc_by_pid parent seg
      | None => false
      end
  | _ => false
  end.

End Spec.

(* ================================================================== *)
(** ** Sample process tables *)

Module Sample.

Definition p_init : proc :=
  mkProc 1 0 "root" "init" ["/sbin/init"] "0.0" "0.1" "?"
         [2024; 1; 1; 9; 5; 0; 0; 1; 0] [7; 5].

Definition p_systemd : proc :=
  mkProc 1 0 "root" "systemd" ["/lib/systemd/systemd"; "--system"] "0.0"
         "0.1" "?" [2024; 1; 1; 9; 5; 0; 0; 1; 0] [7; 5].

Definition p_sh : proc :=
  mkProc 42 1 "root" "sh" ["/bin/sh"; "-c"; "sleep 1"] "0.0" "0.2" "pts/0"
         [2024; 1; 1; 10; 30; 0; 0; 1; 0] [0; 1].

(** A process whose parent is 7, not 1. *)
Definition p_stray : proc :=
  mkProc 42 7 "alice" "bogus" ["bogus"] "1.5" "0.3" "pts/1"
         [2024; 1; 1; 23; 59; 0; 0; 1; 0] [12345; 59].

Definition lookup (tbl : list proc) (pid : Z) : option proc :=
  List.find (fun p => tid p =? pid) tbl.

Definition table_A : list proc := [p_init; p_sh].
Definition table_systemd : list proc := [p_systemd; p_sh].
Definition table_stray : list proc := [p_init; p_stray].
Definition table_empty : list proc := [].

End Sample.

(* ================================================================== *)
(** ** Auxiliary predicates on strings *)

Fixpoint all_chars (p : ascii -> bool) (s : string) : bool :=
  match s with
  | EmptyString => true
  | String c s' => p c && all_chars p s'
  end.

(** The last character of [s] satisfies [p] (false on the empty
    string). *)
Fixpoint ends_with (p : ascii -> bool) (s : string) : bool :=
  match s with
  | EmptyString => false
  | String c EmptyString => p c
  | String _ s' => ends_with p s'
  end.

Definition not_char (c : ascii) (x : ascii) : bool := negb (Ascii.eqb x c).

(** A name as the specification allows it: not empty and free of
    parentheses and slashes. *)
Definition valid_name (n : string) : bool :=
  negb (String.eqb n "")
  && all_chars (not_char "(") n
  && all_chars (not_char ")") n
  && all_chars (not_char "/") n.

(* ================================================================== *)
(** ** [procpy.py]: reading the [/proc] directory *)

Module Procpy.

(** The characters on which [str.split()] cuts: tab, newline, vertical
    tab, form feed, carriage return and blank. *)
Definition is_space (c : ascii) : bool :=
  let n := N_of_ascii c in (((9 <=? n) && (n <=? 13)) || (n =? 32))%N.

Definition not_space (c : ascii) : bool := negb (is_space c).

(** [s.split()]: the maximal runs of characters that are not blank, in
    order; [cur] is the field being read. *)
Fixpoint fields_from (cur : string) (s : string) : list string :=
  match s with
  | EmptyString =>
      match cur with
      | EmptyString => []
      | _ => [cur]
      end
  | String c s' =>
      if is_space c then
        match cur with
        | EmptyString => fields_from EmptyString s'
        | _ => cur :: fields_from EmptyString s'
        end
      else fields_from (cur ++ String c EmptyString) s'
  end.

Definition split_ws (s : string) : list string := fields_from EmptyString s.

(** [re.match("\d+", d)] succeeds when [d] starts with a digit. *)
Definition match_digits (d : string) : bool :=
  match d with
  | String c _ => Re.is_digit c
  | EmptyString => false
  end.

(** A dictionary with integer keys: [d[k] = v] and [d.get(k)]. *)
Fixpoint dict_set (k : Z) (v : string) (d : list (Z * string))
  : list (Z * string) :=
  match d with
  | [] => [(k, v)]
  | (k', v') :: d' =>
      if k' =? k then (k, v) :: d' else (k', v') :: dict_set k v d'
  end.

Fixpoint dict_get (k : Z) (d : list (Z * string)) : option string :=
  match d with
  | [] => None
  | (k', v') :: d' => if k' =? k then Some v' else dict_get k d'
  end.

(** The dictionary that [pidinfo] returns: the record of the process
    and the five keys added from the [/proc/PID] directory. *)
Record pinfo : Type := mkPinfo {
  base : proc;
  maps : list string;
  cwd : string;
  exe : string;
  root : string;
  fds : list (Z * string)
}.

(** An instance of [_Parent]: the identifier it was built for and the
    keys of its dictionary, copied as attributes. *)
Record Parent : Type := mkParent {
  parent_pid : Z;
  parent_info : pinfo
}.

(** An instance of [Pid]; [parent] is set only for a positive parent
    identifier. *)
Record PidObj : Type := mkPidObj {
  pid_pid : Z;
  pid_info : pinfo;
  pid_parent : option Parent
}.

Section ProcDir.

(** The operating system as the module sees it: [open(path)] iterated
    by lines ([None] for [IOError]), [os.readlink] and [os.listdir]
    ([None] when they raise), and [readproc_by_pid] of the extension
    ([None] when it raises [procpy.error]). *)
Variable read_lines : string -> option (list string).
Variable readlink : string -> option string.
Variable listdir : string -> option (list string).
Variable readproc_by_pid : Z -> option proc.

(** [int(s)] on text that is not a plain run of digits (blanks, signs
    and the like): [None] when it raises [ValueError]. *)
Variable int_other : string -> option Z.

Definition py_int (s : string) : option Z :=
  if negb (String.eqb s "") && all_chars Re.is_digit s
  then Some (PyStr.int s)
  else int_other s.

(** The loop of [__getmaps__]: the sixth field of every line that has
    one, kept once. *)
Fixpoint getmaps_loop (lines : list string) (maps : list string)
  : list string :=
  match lines with
  | [] => maps
  | line :: rest =>
      match nth_error (split_ws line) 5 with
      | None => getmaps_loop rest maps
      | Some fname =>
          if existsb (String.eqb fname) maps then getmaps_loop rest maps
          else getmaps_loop rest (maps ++ [fname])%list
      end
  end.

Definition __getmaps__ (pid : Z) : list string :=
  match read_lines ("/proc/" ++ PyStr.fmt_d false 0 pid ++ "/maps") with
  | None => []
  | Some lines => getmaps_loop lines []
  end.

Definition __getlink__ (pid : Z) (fnam : string) : string :=
  match readlink ("/proc/" ++ PyStr.fmt_d false 0 pid ++ "/" ++ fnam) with
  | Some target => target
  | None => ""
  end.

(** The loop of [__getfds__]: an entry whose name is not an integer or
    whose link cannot be read is skipped. *)
Fixpoint getfds_loop (pid : Z) (dir_entries : list string)
         (fds : list (Z * string)) : list (Z * string) :=
  match dir_entries with
  | [] => fds
  | dir_entry :: rest =>
      if String.eqb dir_entry "." || String.eqb dir_entry ".."
      then getfds_loop pid rest fds
      else
        match py_int dir_entry with
        | None => getfds_loop pid rest fds
        | Some fd =>
            match readlink ("/proc/" ++ PyStr.fmt_d false 0 pid ++ "/fd/"
                              ++ dir_entry) with
            | None => getfds_loop pid rest fds
            | Some target => getfds_loop pid rest (dict_set fd target fds)
            end
        end
  end.

Definition __getfds__ (pid : Z) : list (Z * string) :=
  match listdir ("/proc/" ++ PyStr.fmt_d false 0 pid ++ "/fd/") with
  | None => []
  | Some dir_entries => getfds_loop pid dir_entries []
  end.

(** The loop of [_InitProcRT.__getpids__]; [int] is not guarded, so
    its failure ends the call. *)
Fixpoint getpids_loop (ds : list string) (pids : list Z)
  : option (list Z) :=
  match ds with
  | [] => Some pids
  | d :: rest =>
      if match_digits d then
        match py_int d with
        | Some n => getpids_loop rest (pids ++ [n])%list
        | None => None
        end
      else getpids_loop rest pids
  end.

(** [_InitProcRT.__getpids__]: [None] when [os.listdir] or [int]
    raises. *)
Definition RT_getpids : option (list Z) :=
  match listdir "/proc/" with
  | None => None
  | Some ds => getpids_loop ds []
  end.

(** The five assignments shared by [ProcRT.pidinfo], [_Parent] and
    [Pid]. *)
Definition fill (pid : Z) (p : proc) : pinfo :=
  mkPinfo p (__getmaps__ pid) (__getlink__ pid "cwd")
          (__getlink__ pid "exe") (__getlink__ pid "root")
          (__getfds__ pid).

(** [ProcRT.pidinfo] *)
Definition ProcRT_pidinfo (pid : Z) : result pinfo :=
  match readproc_by_pid pid with
  | None => Raise ProcpyError
  | Some p => Ret (fill pid p)
  end.

(** [_Parent.__init__] *)
Definition Parent_init (ppid' : Z) : result Parent :=
  match readproc_by_pid ppid' with
  | None => Raise ProcpyError
  | Some p => Ret (mkParent ppid' (fill ppid' p))
  end.

(** [Pid.__init__] *)
Definition Pid_init (pid : Z) : result PidObj :=
  match readproc_by_pid pid with
  | None => Raise ProcpyError
  | Some p =>
      let info := fill pid p in
      if ppid p >? 0 then
        match Parent_init (ppid p) with
        | Ret par => Ret (mkPidObj pid info (Some par))
        | Raise e => Raise e
        end
      else Ret (mkPidObj pid info None)
  end.

End ProcDir.

End Procpy.

(** A [/proc] with one process, for the examples. *)
Module SampleProc.

Definition maps_lines : list string :=
  ["00400000-0040b000 r-xp 00000000 08:01 131 /bin/cat" ++ PyStr.newline;
   "0060a000-0060b000 r--p 0000a000 08:01 131 /bin/cat" ++ PyStr.newline;
   "01c8b000-01cac000 rw-p 00000000 00:00 0 " ++ PyStr.newline;
   "7f1e5000-7f1e7000 r-xp 00000000 08:01 977 /lib/libc.so" ++ PyStr.newline].

Definition read_lines (path : string) : option (list string) :=
  if String.eqb path "/proc/42/maps" then Some maps_lines else None.

Definition readlink (path : string) : option string :=
  if String.eqb path "/proc/42/fd/0" then Some "/dev/pts/0"
  else if String.eqb path "/proc/42/fd/1" then Some "/dev/null"
  else if String.eqb path "/proc/42/cwd" then Some "/root"
  else None.

Definition listdir (path : string) : option (list string) :=
  if String.eqb path "/proc/42/fd/" then Some ["0"; "1"; "2"]
  else if String.eqb path "/proc/" then Some ["1"; "42"; "self"; "meminfo"]
  else None.

Definition int_other (s : string) : option Z := None.

(** A listing with a name that starts with a digit and is no number. *)
Definition listdir_odd (path : string) : option (list string) :=
  if String.eqb path "/proc/" then Some ["1"; "42"; "9lives"; "self"]
  else None.

End SampleProc.

(* ================================================================== *)
(** * Properties *)

(** ** The monad and indexing *)

Lemma bind_ret_l {A B : Type} (a : A) (f : A -> M B) :
  bind (ret a) f = f a.
Proof. unfold bind, ret. destruct (f a) as [t r]. reflexivity. Qed.

Lemma item_neg_last {A : Type} (pre : list A) (a : A) :
  item_neg (pre ++ [a])%list 1 = ret a.
Proof. unfold item_neg. rewrite rev_app_distr. reflexivity. Qed.

Lemma item_neg_last2 {A : Type} (pre : list A) (a b : A) :
  item_neg (pre ++ [a; b])%list 1 = ret b.
Proof. unfold item_neg. rewrite rev_app_distr. reflexivity. Qed.

Lemma item_neg_second {A : Type} (pre : list A) (a b : A) :
  item_neg (pre ++ [a; b])%list 2 = ret a.
Proof. unfold item_neg. rewrite rev_app_distr. reflexivity. Qed.

(** ** [split] *)

Lemma split_not_nil (s : string) : PyStr.split s <> [].
Proof.
  destruct s as [|c s]; simpl; [discriminate|].
  destruct (Ascii.eqb c "/"); [discriminate|].
  destruct (PyStr.split s); discriminate.
Qed.

(** Every path has a final segment. *)
Lemma split_snoc (s : string) :
  exists pre seg, PyStr.split s = (pre ++ [seg])%list.
Proof.
  destruct (exists_last (split_not_nil s)) as [pre [seg E]].
  exists pre, seg. exact E.
Qed.

Lemma find_info_In (info : string) :
  In info infoFiles -> find_info info = Some info.
Proof.
  unfold infoFiles. simpl.
  intros H; repeat (destruct H as [H|H]; [subst info; reflexivity|]).
  contradiction.
Qed.

Lemma find_info_Some (x info : string) :
  find_info x = Some info -> x = info /\ In info infoFiles.
Proof.
  unfold find_info. intros H.
  apply find_some in H. destruct H as [HIn Heq].
  apply String.eqb_eq in Heq. split; [exact Heq | exact HIn].
Qed.

Lemma find_info_None (x : string) :
  find_info x = None -> ~ In x infoFiles.
Proof.
  intros H HIn. rewrite (find_info_In x HIn) in H. discriminate.
Qed.

(** The root path has no attribute name as its final segment. *)
Lemma split_root_not_info (path : string) (pre : list string) (info : string) :
  PyStr.split path = (pre ++ [info])%list -> In info infoFiles -> path <> "/".
Proof.
  intros Hs HIn ->. simpl in Hs.
  destruct pre as [|a [|b pre]]; simpl in Hs.
  - discriminate.
  - injection Hs as _ <-. simpl in HIn. intuition discriminate.
  - injection Hs as _ _ Hs. destruct pre; discriminate.
Qed.

(** ** Decimal numerals *)

Lemma all_chars_app (p : ascii -> bool) (s t : string) :
  all_chars p (s ++ t) = all_chars p s && all_chars p t.
Proof.
  induction s as [|c s IH]; simpl; [reflexivity|].
  rewrite IH. apply andb_assoc.
Qed.

Lemma digit_char_code (d : N) :
  (d < 10)%N -> N_of_ascii (PyStr.digit_char d) = (48 + d)%N.
Proof.
  intros H. unfold PyStr.digit_char.
  apply N_ascii_embedding. lia.
Qed.

Lemma digit_char_is_digit (d : N) :
  (d < 10)%N -> Re.is_digit (PyStr.digit_char d) = true.
Proof.
  intros H. unfold Re.is_digit. rewrite (digit_char_code d H).
  apply andb_true_intro; split; apply N.leb_le; lia.
Qed.

Lemma digit_val_char (d : N) :
  (d < 10)%N -> PyStr.digit_val (PyStr.digit_char d) = d.
Proof.
  intros H. unfold PyStr.digit_val. rewrite (digit_char_code d H). lia.
Qed.

Lemma int_acc_app (s t : string) : forall acc,
  PyStr.int_acc acc (s ++ t) = PyStr.int_acc (PyStr.int_acc acc s) t.
Proof.
  induction s as [|c s IH]; intros acc; simpl; [reflexivity|].
  apply IH.
Qed.

Lemma digits_fuel_S (f : nat) (n : N) :
  PyStr.digits_fuel (S f) n =
  if (n <? 10)%N then String (PyStr.digit_char n) EmptyString
  else PyStr.digits_fuel f (n / 10)%N
         ++ String (PyStr.digit_char (n mod 10)%N) EmptyString.
Proof. reflexivity. Qed.

(** With enough fuel the numeral is a non-empty run of digits that
    reads back as the number. *)
Lemma digits_fuel_spec (fuel : nat) : forall n : N,
  (n < 2 * 2 ^ N.of_nat fuel)%N ->
  all_chars Re.is_digit (PyStr.digits_fuel (S fuel) n) = true
  /\ PyStr.digits_fuel (S fuel) n <> ""
  /\ PyStr.int_acc 0 (PyStr.digits_fuel (S fuel) n) = n.
Proof.
  induction fuel as [|f IH]; intros n Hn.
  - cbn in Hn. rewrite (digits_fuel_S 0 n).
    destruct (N.ltb_spec n 10) as [Hlt|Hge]; [|lia].
    repeat split.
    + cbn [all_chars]. rewrite (digit_char_is_digit n Hlt). reflexivity.
    + discriminate.
    + cbn [PyStr.int_acc]. rewrite (digit_val_char n Hlt). lia.
  - rewrite (digits_fuel_S (S f) n).
    destruct (N.ltb_spec n 10) as [Hlt|Hge].
    + repeat split.
      * cbn [all_chars]. rewrite (digit_char_is_digit n Hlt). reflexivity.
      * discriminate.
      * cbn [PyStr.int_acc]. rewrite (digit_val_char n Hlt). lia.
    + assert (Hq : (n / 10 < 2 * 2 ^ N.of_nat f)%N).
      { apply N.Div0.div_lt_upper_bound.
        rewrite Nnat.Nat2N.inj_succ, N.pow_succ_r' in Hn. lia. }
      destruct (IH _ Hq) as (Hall & Hne & Hint).
      assert (Hm : (n mod 10 < 10)%N) by (apply N.mod_lt; lia).
      repeat split.
      * rewrite all_chars_app, Hall. cbn [all_chars].
        rewrite (digit_char_is_digit _ Hm). reflexivity.
      * intros E. destruct (PyStr.digits_fuel (S f) (n / 10)); discriminate.
      * rewrite int_acc_app, Hint. cbn [PyStr.int_acc].
        rewrite (digit_val_char _ Hm).
        pose proof (N.div_mod n 10). lia.
Qed.

Lemma digits_spec (n : N) :
  all_chars Re.is_digit (PyStr.digits n) = true
  /\ PyStr.digits n <> ""
  /\ PyStr.int_acc 0 (PyStr.digits n) = n.
Proof.
  unfold PyStr.digits. apply digits_fuel_spec.
  destruct n as [|p]; [cbn; lia|].
  rewrite Nnat.N2Nat.id.
  pose proof (N.log2_spec (N.pos p)) as H.
  assert (Hpos : (0 < N.pos p)%N) by lia.
  specialize (H Hpos). rewrite N.pow_succ_r' in H. lia.
Qed.

Lemma str_nonneg (z : Z) : 0 <= z -> PyStr.str z = PyStr.digits (Z.to_N z).
Proof.
  intros H. unfold PyStr.str.
  destruct (Z.ltb_spec z 0); [lia | reflexivity].
Qed.

Lemma int_str (z : Z) : 0 <= z -> PyStr.int (PyStr.str z) = z.
Proof.
  intros H. rewrite (str_nonneg z H). unfold PyStr.int.
  destruct (digits_spec (Z.to_N z)) as (_ & _ & E). rewrite E. lia.
Qed.

(** ** The matcher on an encoded segment *)

Local Abbreviation k_num :=
  (fun (num s2 : string) => Re.lit ")" (fun _ : string => Some num) s2).
Local Abbreviation k_word :=
  (fun (_ s1 : string) =>
     Re.lit "(" (Re.plus Re.is_digit k_num EmptyString) s1).

Lemma plus_cons {R : Type} (p : ascii -> bool)
      (k : string -> string -> option R) (taken : string) (c : ascii)
      (s : string) :
  Re.plus p k taken (String c s) =
  if p c then
    match Re.plus p k (taken ++ String c EmptyString) s with
    | Some r => Some r
    | None => k (taken ++ String c EmptyString) s
    end
  else None.
Proof. reflexivity. Qed.

Lemma append_snoc (s t : string) (c : ascii) :
  (s ++ String c EmptyString) ++ t = s ++ String c t.
Proof. induction s as [|a s IH]; simpl; [reflexivity | now rewrite IH]. Qed.

(** [\d+] followed by [)] consumes a whole run of digits. *)
Lemma plus_digits (d : string) : forall taken rest,
  all_chars Re.is_digit d = true -> d <> "" ->
  Re.plus Re.is_digit k_num taken (d ++ String ")" rest) = Some (taken ++ d).
Proof.
  induction d as [|c d IH]; intros taken rest Hall Hne; [congruence|].
  cbn [all_chars] in Hall. apply andb_prop in Hall. destruct Hall as [Hc Hd].
  cbn [append]. rewrite plus_cons, Hc.
  destruct d as [|c' d'].
  - cbn. reflexivity.
  - rewrite (IH (taken ++ String c EmptyString) rest Hd) by discriminate.
    now rewrite append_snoc.
Qed.

(** What follows the name in an encoded segment is accepted by the
    rest of the pattern. *)
Lemma k_word_tail (d rest t : string) :
  all_chars Re.is_digit d = true -> d <> "" ->
  Re.lit "(" (Re.plus Re.is_digit k_num EmptyString)
         (String "(" (d ++ String ")" rest)) = Some d.
Proof.
  intros Hall Hne. cbn [Re.lit]. cbn [Ascii.eqb Bool.eqb].
  now rewrite (plus_digits d "" rest Hall Hne).
Qed.

(** A run of word characters right before the parenthesis matches. *)
Lemma plus_word_run (d rest : string) (w : string) : forall taken,
  all_chars Re.is_digit d = true -> d <> "" ->
  all_chars Re.is_word w = true -> w <> "" ->
  Re.plus Re.is_word k_word taken (w ++ String "(" (d ++ String ")" rest))
  = Some d.
Proof.
  induction w as [|c w IH]; intros taken Hd Hne Hw Hwne; [congruence|].
  cbn [all_chars] in Hw. apply andb_prop in Hw. destruct Hw as [Hc Hw].
  cbn [append]. rewrite plus_cons, Hc.
  destruct w as [|c' w'].
  - cbn [append]. rewrite plus_cons.
    change (Re.is_word "(") with false. cbv iota.
    exact (k_word_tail d rest taken Hd Hne).
  - rewrite (IH (taken ++ String c EmptyString) Hd Hne Hw) by discriminate.
    reflexivity.
Qed.

(** From any position inside a name without [(], the anchored match
    either fails or captures the digits of the encoded identifier. *)
Lemma plus_word_no_paren (d rest : string) (n : string) : forall taken,
  all_chars Re.is_digit d = true -> d <> "" ->
  all_chars (not_char "(") n = true ->
  Re.plus Re.is_word k_word taken (n ++ String "(" (d ++ String ")" rest))
  = Some d
  \/ Re.plus Re.is_word k_word taken (n ++ String "(" (d ++ String ")" rest))
     = None.
Proof.
  induction n as [|c n IH]; intros taken Hd Hne Hn.
  - right. cbn [append]. rewrite plus_cons.
    change (Re.is_word "(") with false. reflexivity.
  - cbn [all_chars] in Hn. apply andb_prop in Hn. destruct Hn as [Hc Hn].
    cbn [append]. rewrite plus_cons.
    destruct (Re.is_word c); [|right; reflexivity].
    destruct (IH (taken ++ String c EmptyString) Hd Hne Hn) as [E|E];
      rewrite E; [left; reflexivity|].
    destruct n as [|c' n'].
    + left. exact (k_word_tail d rest taken Hd Hne).
    + right. cbn [append Re.lit].
      cbn [all_chars] in Hn. apply andb_prop in Hn. destruct Hn as [Hc' _].
      unfold not_char in Hc'. apply negb_true_iff in Hc'. now rewrite Hc'.
Qed.

Lemma ends_with_cons (p : ascii -> bool) (c c' : ascii) (s : string) :
  ends_with p (String c (String c' s)) = ends_with p (String c' s).
Proof. reflexivity. Qed.

(** The search on an encoded segment finds the encoded digits. *)
Lemma search_encoded (d rest : string) (n : string) :
  all_chars Re.is_digit d = true -> d <> "" ->
  all_chars (not_char "(") n = true ->
  ends_with Re.is_word n = true ->
  Re.search (n ++ String "(" (d ++ String ")" rest)) = Some d.
Proof.
  intros Hd Hne.
  induction n as [|c n IH]; intros Hn He; [discriminate|].
  cbn [append Re.search]. unfold Re.match_here.
  destruct (plus_word_no_paren d rest (String c n) "" Hd Hne Hn) as [E|E];
    cbn [append] in E; rewrite E; [reflexivity|].
  destruct n as [|c' n'].
  - exfalso. cbn [ends_with] in He.
    assert (Hw : all_chars Re.is_word (String c "") = true)
      by (cbn [all_chars]; now rewrite He).
    pose proof (plus_word_run d rest (String c "") "" Hd Hne Hw) as F.
    cbn [append] in F, E. rewrite F in E by discriminate. discriminate.
  - apply IH.
    + cbn [all_chars] in Hn. apply andb_prop in Hn. tauto.
    + now rewrite ends_with_cons in He.
Qed.

(** Decoding an encoded segment, for names that end in a word
    character and hold no opening parenthesis. *)
Lemma getPid_makeProcName (n : string) (i : Z) :
  all_chars (not_char "(") n = true ->
  ends_with Re.is_word n = true ->
  0 <= i ->
  getPid (makeProcName n i) = i.
Proof.
  intros Hn He Hi. unfold getPid, makeProcName.
  destruct (digits_spec (Z.to_N i)) as (Hall & Hne & _).
  rewrite <- (str_nonneg i Hi) in Hall, Hne.
  change (n ++ "(" ++ PyStr.str i ++ ")")
    with (n ++ String "(" (PyStr.str i ++ String ")" EmptyString)).
  rewrite (search_encoded (PyStr.str i) "" n Hall Hne Hn He).
  exact (int_str i Hi).
Qed.

(** ** Formatting *)

Lemma str_neg (z : Z) :
  z < 0 -> PyStr.str z = String "-" (PyStr.digits (Z.to_N (Z.abs z))).
Proof.
  intros H. unfold PyStr.str.
  destruct (Z.ltb_spec z 0); [|lia].
  rewrite (Z.abs_neq z) by lia. reflexivity.
Qed.

(** [%Nd] right-aligns the numeral with blanks. *)
Lemma fmt_d_blank (width : nat) (z : Z) :
  PyStr.fmt_d false width z = Spec.blank_pad width z.
Proof.
  unfold PyStr.fmt_d, Spec.blank_pad.
  destruct (Z.ltb_spec z 0) as [Hneg|Hpos].
  - rewrite (str_neg z Hneg). reflexivity.
  - rewrite (str_nonneg z Hpos), (Z.abs_eq z Hpos). reflexivity.
Qed.

(** [%02d] puts zeros in front of the numeral. *)
Lemma fmt_d_zero2 (z : Z) :
  PyStr.fmt_d true 2 z = Spec.zero_pad 2 z.
Proof.
  unfold PyStr.fmt_d, Spec.zero_pad.
  destruct (Z.ltb_spec z 0) as [Hneg|Hpos].
  - rewrite (str_neg z Hneg).
    destruct (digits_spec (Z.to_N (Z.abs z))) as (_ & Hne & _).
    destruct (PyStr.digits (Z.to_N (Z.abs z))) as [|c s]; [congruence|].
    reflexivity.
  - rewrite (str_nonneg z Hpos), (Z.abs_eq z Hpos). reflexivity.
Qed.

(** ** Shape of a path *)

Lemma snoc2 {A : Type} (pre : list A) (a b : A) :
  (pre ++ [a; b])%list = ((pre ++ [a]) ++ [b])%list.
Proof. now rewrite <- app_assoc. Qed.

Lemma path_with_info_not_root (path : string) (pre : list string)
      (seg info : string) :
  PyStr.split path = (pre ++ [seg; info])%list -> In info infoFiles ->
  String.eqb path "/" = false.
Proof.
  intros Hs HIn. apply String.eqb_neq.
  rewrite snoc2 in Hs. exact (split_root_not_info _ _ _ Hs HIn).
Qed.

(** [read] on an attribute path with a decodable directory segment is
    the rendering followed by a line terminator. *)
Lemma read_attribute (rp : Z -> option proc) (path : string)
      (pre : list string) (seg info : string) (size offset : Z) :
  PyStr.split path = (pre ++ [seg; info])%list ->
  In info infoFiles ->
  getPid seg <> 0 ->
  read rp path size offset =
  bind (getFileInfo rp (getPid seg) info)
       (fun text => ret (PyString (text ++ PyStr.newline))).
Proof.
  intros Hs HIn Hpid. unfold read.
  rewrite (path_with_info_not_root path pre seg info Hs HIn).
  rewrite Hs, item_neg_last2, bind_ret_l, (find_info_In info HIn).
  rewrite item_neg_second, bind_ret_l.
  destruct (Z.eqb_spec (getPid seg) 0) as [E|_]; [contradiction|].
  reflexivity.
Qed.

Lemma getProcessInfo_some (rp : Z -> option proc) (pid : Z) (p : proc) :
  rp pid = Some p -> getProcessInfo rp pid = ([EvReadprocByPid pid], Ret p).
Proof. intros H. unfold getProcessInfo. rewrite H. reflexivity. Qed.

Lemma getProcessInfo_none (rp : Z -> option proc) (pid : Z) :
  rp pid = None ->
  getProcessInfo rp pid = ([EvReadprocByPid pid], Raise ProcpyError).
Proof. intros H. unfold getProcessInfo. rewrite H. reflexivity. Qed.

Lemma getFileInfo_none (rp : Z -> option proc) (pid : Z) (info : string) :
  rp pid = None ->
  getFileInfo rp pid info = ([EvReadprocByPid pid], Raise ProcpyError).
Proof.
  intros H. unfold getFileInfo. rewrite (getProcessInfo_none rp pid H).
  reflexivity.
Qed.

(** A computation that ends by wrapping a string never yields an
    integer. *)
Lemma bind_string_not_int (m : M string) (f : string -> string) (z : Z) :
  outcome (bind m (fun text => ret (PyString (f text)))) <> Ret (PyInt z).
Proof.
  destruct m as [t [a|e]]; cbn; discriminate.
Qed.

(* ================================================================== *)
(** * Worked scenarios *)

(** A table with pid 1 ([init]) and pid 42 ([sh], child of 1, user
    [root]). *)
Example scenario_list_init :
  readdir Sample.table_A "/init(1)" 0
  = ([EvReadproc],
     Ret ([mkDirentry "." 0; mkDirentry ".." 0]
            ++ List.map (fun info => mkDirentry info 33060) infoFiles
            ++ [mkDirentry "sh(42)" S_IFDIR])%list).
Proof. reflexivity. Qed.

Example scenario_read_user :
  read (Sample.lookup Sample.table_A) "/init(1)/sh(42)/USER" 64 0
  = ([EvReadprocByPid 42], Ret (PyString ("root" ++ PyStr.newline))).
Proof. reflexivity. Qed.

Example scenario_read_start :
  read (Sample.lookup Sample.table_A) "/init(1)/sh(42)/START" 64 0
  = ([EvReadprocByPid 42], Ret (PyString ("10:30" ++ PyStr.newline))).
Proof. reflexivity. Qed.

Example scenario_read_command :
  read (Sample.lookup Sample.table_A) "/init(1)/sh(42)/COMMAND" 64 0
  = ([EvReadprocByPid 42],
     Ret (PyString ("/bin/sh -c sleep 1" ++ PyStr.newline))).
Proof. reflexivity. Qed.

Example scenario_stat_directory :
  getattr (Sample.lookup Sample.table_A) "/init(1)/sh(42)"
  = ([EvReadprocByPid 42],
     Ret (PyStatV (mkStat 16749 0 0 1 0 0 0 0 0 0 0 0 0))).
Proof. reflexivity. Qed.

Example scenario_stat_attribute :
  getattr (Sample.lookup Sample.table_A) "/init(1)/sh(42)/USER"
  = ([EvReadprocByPid 42],
     Ret (PyStatV (mkStat 33060 0 0 0 0 0 5 0 0 0 0 0 0))).
Proof. reflexivity. Qed.

Example scenario_remove :
  rmdir "/init(1)/sh(42)" = ([EvSystem "kill -9 42"], Ret (PyInt 0))
  /\ rmdir "/init(1)" = ([], Ret (PyInt (- EINVAL))).
Proof. split; reflexivity. Qed.

Example scenario_search_leftmost :
  getPid "a(1)b(5)" = 1 /\ getPid "a-b(007)" = 7 /\ getPid "(5)" = 0
  /\ getPid "x(5" = 0 /\ getPid "x()" = 0.
Proof. repeat split; reflexivity. Qed.

(* ================================================================== *)
(** * The path codec *)

(** C3 (amended): for every name [n] that is non-empty, holds no
    parenthesis and no slash, and whose last character is a word
    character (a letter, a digit or an underscore), and for every
    identifier [i > 0], decoding the segment that encodes [(n, i)] gives
    back the identifier [i].  The decoder returns the identifier only. *)
Theorem decode_encode_identifier (n : string) (i : Z) :
  valid_name n = true ->
  ends_with Re.is_word n = true ->
  0 < i ->
  getPid (makeProcName n i) = i.
Proof.
  intros Hv He Hi. unfold valid_name in Hv.
  repeat (apply andb_prop in Hv; destruct Hv as [Hv ?]).
  apply getPid_makeProcName; [assumption | assumption | lia].
Qed.

Lemma decode_encode_identifier_witness :
  valid_name "sh" = true /\ getPid (makeProcName "sh" 42) = 42.
Proof.
  split; [reflexivity|].
  apply (decode_encode_identifier "sh" 42); [reflexivity | reflexivity | lia].
Defined.

(** C3 as stated fails: a valid name that ends in a hyphen is encoded
    to a segment that decodes to 0. *)
Lemma decode_encode_trailing_hyphen :
  valid_name "xdg-permission-" = true
  /\ 0 < 5
  /\ makeProcName "xdg-permission-" 5 = "xdg-permission-(5)"
  /\ getPid (makeProcName "xdg-permission-" 5) = 0
  /\ getPid (makeProcName "xdg-permission-" 5) <> 5.
Proof.
  repeat split; try reflexivity. vm_compute. discriminate.
Qed.

(* ================================================================== *)
(** * Attribute rendering *)

(** C9 (amended): for every live process record, the TIME attribute is
    the minutes of accumulated CPU time right-aligned with blanks (not
    zeros) in a field of at least 4 columns, a colon, and the seconds
    zero-padded to 2 digits; minutes 7 and seconds 5 give "   7:05". *)
Theorem time_rendering (rp : Z -> option proc) (pid : Z) (p : proc)
        (m s : Z) (rest : list Z) :
  rp pid = Some p ->
  time p = m :: s :: rest ->
  getFileInfo rp pid "TIME"
  = ([EvReadprocByPid pid],
     Ret (Spec.blank_pad 4 m ++ ":" ++ Spec.zero_pad 2 s)).
Proof.
  intros Hp Ht. unfold getFileInfo.
  rewrite (getProcessInfo_some rp pid p Hp).
  cbn [bind String.eqb Ascii.eqb Bool.eqb]. rewrite Ht.
  unfold item. cbn [nth_error]. rewrite !bind_ret_l.
  rewrite fmt_d_blank, fmt_d_zero2. reflexivity.
Qed.

Lemma time_rendering_witness :
  getFileInfo (Sample.lookup Sample.table_A) 1 "TIME"
  = ([EvReadprocByPid 1], Ret "   7:05").
Proof.
  exact (time_rendering (Sample.lookup Sample.table_A) 1 Sample.p_init 7 5 []
                        eq_refl eq_refl).
Defined.

(** C9 as stated fails: minutes 7 and seconds 5 are rendered with
    leading blanks, not as "0007:05". *)
Lemma time_rendering_not_zero_padded :
  Sample.lookup Sample.table_A 1 = Some Sample.p_init
  /\ time Sample.p_init = [7; 5]
  /\ Spec.time_text 7 5 = "0007:05"
  /\ getFileInfo (Sample.lookup Sample.table_A) 1 "TIME"
     = ([EvReadprocByPid 1], Ret "   7:05")
  /\ outcome (getFileInfo (Sample.lookup Sample.table_A) 1 "TIME")
     <> Ret (Spec.time_text 7 5).
Proof.
  repeat split; try reflexivity. vm_compute. discriminate.
Qed.

(* ================================================================== *)
(** * [rmdir] *)

(** C1 (amended): for every path whose final segment is the literal
    root segment [init(1)], [rmdir] fails with EINVAL and issues no
    termination request, whatever the process table holds. *)
Theorem rmdir_root_segment_rejected (path : string) (pre : list string) :
  PyStr.split path = (pre ++ ["init(1)"])%list ->
  rmdir path = ([], Ret (PyInt (- EINVAL))).
Proof.
  intros Hs. unfold rmdir. rewrite Hs, item_neg_last, bind_ret_l.
  reflexivity.
Qed.

Lemma rmdir_root_segment_rejected_witness :
  PyStr.split "/init(1)" = ([""] ++ ["init(1)"])%list
  /\ rmdir "/init(1)" = ([], Ret (PyInt (- EINVAL))).
Proof.
  split; [reflexivity|].
  apply (rmdir_root_segment_rejected "/init(1)" [""]). reflexivity.
Defined.

(** C1 as stated fails: a final segment that decodes to identifier 1
    under another name is not rejected; the termination request for
    process 1 is issued and the call succeeds. *)
Lemma rmdir_other_name_for_pid_1 :
  PyStr.split "/systemd(1)" = [""; "systemd(1)"]
  /\ getPid "systemd(1)" = 1
  /\ rmdir "/systemd(1)" = ([EvSystem "kill -9 1"], Ret (PyInt 0))
  /\ rmdir "/systemd(1)" <> ([], Ret (PyInt (- EINVAL))).
Proof.
  repeat split; try reflexivity. vm_compute. discriminate.
Qed.

(** C10: for every path whose final segment is not the literal root
    segment and decodes to a positive identifier, [rmdir] issues the
    termination request for that identifier and returns success; its
    only external call is that request: the process table is never
    read, so the outcome does not depend on it. *)
Theorem rmdir_kills_decoded_pid (path : string) (pre : list string)
        (seg : string) :
  PyStr.split path = (pre ++ [seg])%list ->
  seg <> "init(1)" ->
  0 < getPid seg ->
  rmdir path
  = ([EvSystem ("kill -9 " ++ PyStr.str (getPid seg))], Ret (PyInt 0))
  /\ ~ In EvReadproc (trace (rmdir path))
  /\ forall pid, ~ In (EvReadprocByPid pid) (trace (rmdir path)).
Proof.
  intros Hs Hseg Hpid.
  assert (E : rmdir path
              = ([EvSystem ("kill -9 " ++ PyStr.str (getPid seg))],
                 Ret (PyInt 0))).
  { unfold rmdir. rewrite Hs, item_neg_last, bind_ret_l.
    apply String.eqb_neq in Hseg. rewrite Hseg.
    destruct (Z.eqb_spec (getPid seg) 0) as [Z0|_]; [lia | reflexivity]. }
  rewrite E. cbn [trace fst In].
  repeat split; [intros [H|[]]; discriminate | intros pid [H|[]]; discriminate].
Qed.

Lemma rmdir_kills_decoded_pid_witness :
  rmdir "/init(1)/sh(42)" = ([EvSystem "kill -9 42"], Ret (PyInt 0)).
Proof.
  refine (proj1 (rmdir_kills_decoded_pid "/init(1)/sh(42)" [""; "init(1)"]
                                         "sh(42)" eq_refl _ _)).
  - discriminate.
  - vm_compute. reflexivity.
Defined.

(* ================================================================== *)
(** * [open] *)

(** C5 (amended): for every path and access mode, [open] succeeds if
    and only if the final segment of the path is one of the eight
    attribute names, and fails with ENOENT otherwise; neither the access
    mode nor the process table is consulted. *)
Theorem open_iff_attribute_name (path : string) (flags : Z)
        (pre : list string) (seg : string) :
  PyStr.split path = (pre ++ [seg])%list ->
  (open path flags = ([], Ret (PyInt 0)) <-> In seg infoFiles)
  /\ (~ In seg infoFiles -> open path flags = ([], Ret (PyInt (- ENOENT)))).
Proof.
  intros Hs. unfold open.
  destruct (String.eqb_spec path "/") as [E|NE].
  - assert (Hnot : ~ In seg infoFiles).
    { intros HIn. exact (split_root_not_info path pre seg Hs HIn E). }
    split; [split|]; intros H.
    + discriminate.
    + contradiction.
    + reflexivity.
  - rewrite Hs, item_neg_last, bind_ret_l.
    destruct (find_info seg) as [info|] eqn:F.
    + apply find_info_Some in F. destruct F as [<- HIn].
      split; [split|]; intros H; [exact HIn | reflexivity | contradiction].
    + apply find_info_None in F.
      split; [split|]; intros H; [discriminate | contradiction | reflexivity].
Qed.

Lemma open_iff_attribute_name_witness :
  open "/init(1)/sh(42)/TTY" O_WRONLY = ([], Ret (PyInt 0)).
Proof.
  apply (proj1 (open_iff_attribute_name "/init(1)/sh(42)/TTY" O_WRONLY
                  [""; "init(1)"; "sh(42)"] "TTY" eq_refl)).
  simpl. tauto.
Defined.

(** C5 as stated fails: [open] succeeds with a write-only access mode,
    and it succeeds on an attribute name under a directory that does not
    resolve. *)
Lemma open_write_mode_and_dead_directory :
  Spec.read_only O_WRONLY = false
  /\ open "/init(1)/USER" O_WRONLY = ([], Ret (PyInt 0))
  /\ Spec.resolves_to_attribute (Sample.lookup Sample.table_empty)
       "/init(1)/ghost(99)/USER" = false
  /\ open "/init(1)/ghost(99)/USER" 0 = ([], Ret (PyInt 0)).
Proof. repeat split; reflexivity. Qed.

(* ================================================================== *)
(** * [read] *)

(** C4 (amended): for every attribute path whose directory segment
    decodes to a non-zero identifier and whose attribute renders to
    [text], [read] returns the whole of [text] followed by a single
    newline, for every size and every offset: the requested byte range
    is not applied. *)
Theorem read_returns_whole_text (rp : Z -> option proc) (path : string)
        (pre : list string) (seg info : string) (t : list event)
        (text : string) (size offset : Z) :
  PyStr.split path = (pre ++ [seg; info])%list ->
  In info infoFiles ->
  getPid seg <> 0 ->
  getFileInfo rp (getPid seg) info = (t, Ret text) ->
  read rp path size offset = (t, Ret (PyString (text ++ PyStr.newline))).
Proof.
  intros Hs HIn Hpid Hg.
  rewrite (read_attribute rp path pre seg info size offset Hs HIn Hpid), Hg.
  cbn [bind ret]. now rewrite app_nil_r.
Qed.

Lemma read_returns_whole_text_witness :
  read (Sample.lookup Sample.table_A) "/init(1)/sh(42)/USER" 2 3
  = ([EvReadprocByPid 42], Ret (PyString ("root" ++ PyStr.newline))).
Proof.
  apply (read_returns_whole_text (Sample.lookup Sample.table_A)
           "/init(1)/sh(42)/USER" [""; "init(1)"] "sh(42)" "USER"
           [EvReadprocByPid 42] "root" 2 3).
  - reflexivity.
  - simpl. tauto.
  - vm_compute. discriminate.
  - reflexivity.
Defined.

(** C4 as stated fails: with offset 1 the first byte is still
    returned, and with the offset at end-of-data the whole text is
    returned instead of nothing. *)
Lemma read_ignores_offset :
  Spec.resolves_to_attribute (Sample.lookup Sample.table_A)
    "/init(1)/sh(42)/USER" = true
  /\ getFileInfo (Sample.lookup Sample.table_A) 42 "USER"
     = ([EvReadprocByPid 42], Ret "root")
  /\ Spec.byte_range ("root" ++ PyStr.newline) 1 64 = "oot" ++ PyStr.newline
  /\ read (Sample.lookup Sample.table_A) "/init(1)/sh(42)/USER" 64 1
     = ([EvReadprocByPid 42], Ret (PyString ("root" ++ PyStr.newline)))
  /\ Spec.byte_range ("root" ++ PyStr.newline) 5 64 = ""
  /\ read (Sample.lookup Sample.table_A) "/init(1)/sh(42)/USER" 64 5
     = ([EvReadprocByPid 42], Ret (PyString ("root" ++ PyStr.newline)))
  /\ "root" ++ PyStr.newline <> Spec.byte_range ("root" ++ PyStr.newline) 1 64
  /\ "root" ++ PyStr.newline <> Spec.byte_range ("root" ++ PyStr.newline) 5 64.
Proof.
  repeat split; try reflexivity; vm_compute; discriminate.
Qed.

(** What [read] yields once the record of the directory segment has
    been fetched: the rendered text and a newline, or an index error
    from a short [start] or [time] tuple. *)
Lemma read_live_pid (rp : Z -> option proc) (path : string)
      (pre : list string) (seg info : string) (p : proc) (size offset : Z) :
  PyStr.split path = (pre ++ [seg; info])%list ->
  In info infoFiles ->
  getPid seg <> 0 ->
  rp (getPid seg) = Some p ->
  (exists text,
      read rp path size offset
      = ([EvReadprocByPid (getPid seg)], Ret (PyString (text ++ PyStr.newline))))
  \/ read rp path size offset
     = ([EvReadprocByPid (getPid seg)], Raise IndexError).
Proof.
  intros Hs HIn Hpid Hp.
  rewrite (read_attribute rp path pre seg info size offset Hs HIn Hpid).
  unfold getFileInfo. rewrite (getProcessInfo_some rp _ p Hp).
  unfold infoFiles in HIn. cbn [In] in HIn.
  repeat (destruct HIn as [<-|HIn]); try contradiction;
    cbn [bind String.eqb Ascii.eqb Bool.eqb ret app];
    try (left; eexists; reflexivity).
  - unfold item.
    destruct (start p) as [|a0 [|a1 [|a2 [|a3 [|a4 l]]]]];
      cbn; try (right; reflexivity).
    left; eexists; reflexivity.
  - unfold item.
    destruct (time p) as [|a0 [|a1 l]]; cbn; try (right; reflexivity).
    left; eexists; reflexivity.
Qed.

(** C2 (amended): for every attribute path whose second-to-last
    segment decodes to a pid whose live parent identifier differs from
    the identifier decoded from the preceding segment, the existence
    check of the directory segment answers false, but [read] does not
    perform that check: it fetches the record of the decoded pid and
    returns the rendered attribute followed by a newline; it does not
    return ENOENT. *)
Theorem read_skips_ancestry_check (rp : Z -> option proc) (path : string)
        (pre : list string) (parent seg info : string) (p : proc)
        (size offset : Z) :
  PyStr.split path = (pre ++ [parent; seg; info])%list ->
  In info infoFiles ->
  getPid seg <> 0 ->
  rp (getPid seg) = Some p ->
  ppid p <> getPid parent ->
  outcome (isExist rp parent seg) = Ret false
  /\ read rp path size offset
     = bind (getFileInfo rp (getPid seg) info)
            (fun text => ret (PyString (text ++ PyStr.newline)))
  /\ ((exists text,
          read rp path size offset
          = ([EvReadprocByPid (getPid seg)],
             Ret (PyString (text ++ PyStr.newline))))
      \/ read rp path size offset
         = ([EvReadprocByPid (getPid seg)], Raise IndexError))
  /\ outcome (read rp path size offset) <> Ret (PyInt (- ENOENT)).
Proof.
  intros Hs HIn Hpid Hp Hpp.
  assert (Hs' : PyStr.split path = ((pre ++ [parent]) ++ [seg; info])%list)
    by (rewrite Hs, <- app_assoc; reflexivity).
  repeat split.
  - unfold isExist.
    destruct ((getPid parent =? 0) || (getPid seg =? 0)); [reflexivity|].
    rewrite (getProcessInfo_some rp _ p Hp). cbn [bind].
    destruct (Z.eqb_spec (ppid p) (getPid parent)); [contradiction|].
    reflexivity.
  - exact (read_attribute rp path _ seg info size offset Hs' HIn Hpid).
  - exact (read_live_pid rp path _ seg info p size offset Hs' HIn Hpid Hp).
  - rewrite (read_attribute rp path _ seg info size offset Hs' HIn Hpid).
    apply bind_string_not_int.
Qed.

Lemma read_skips_ancestry_check_witness :
  outcome (isExist (Sample.lookup Sample.table_stray) "init(1)" "bogus(42)")
  = Ret false
  /\ outcome (read (Sample.lookup Sample.table_stray)
                   "/init(1)/bogus(42)/USER" 64 0)
     <> Ret (PyInt (- ENOENT)).
Proof.
  assert (H := read_skips_ancestry_check (Sample.lookup Sample.table_stray)
                 "/init(1)/bogus(42)/USER" [""] "init(1)" "bogus(42)" "USER"
                 Sample.p_stray 64 0 eq_refl).
  assert (HIn : In "USER" infoFiles) by (simpl; tauto).
  assert (Hpid : getPid "bogus(42)" <> 0) by (vm_compute; discriminate).
  assert (Hpp : ppid Sample.p_stray <> getPid "init(1)")
    by (vm_compute; discriminate).
  specialize (H HIn Hpid eq_refl Hpp).
  split; [exact (proj1 H) | exact (proj2 (proj2 (proj2 H)))].
Defined.

(** C2 as stated fails: pid 42 has parent 7, the path claims parent 1,
    and [read] returns the USER attribute of pid 42. *)
Lemma read_forged_ancestry :
  Sample.lookup Sample.table_stray 42 = Some Sample.p_stray
  /\ ppid Sample.p_stray = 7
  /\ getPid "init(1)" = 1
  /\ isExist (Sample.lookup Sample.table_stray) "init(1)" "bogus(42)"
     = ([EvReadprocByPid 42], Ret false)
  /\ read (Sample.lookup Sample.table_stray) "/init(1)/bogus(42)/USER" 64 0
     = ([EvReadprocByPid 42], Ret (PyString ("alice" ++ PyStr.newline)))
  /\ outcome (read (Sample.lookup Sample.table_stray)
                   "/init(1)/bogus(42)/USER" 64 0)
     <> Ret (PyInt (- ENOENT)).
Proof.
  repeat split; try reflexivity. vm_compute. discriminate.
Qed.

(** C6 (amended): for every pid for which the provider reports no
    record, [read] on an attribute path directly under a segment that
    decodes to that pid queries the provider once and lets its "PID not
    found" error escape as an exception; it returns ENOENT only when the
    segment decodes to 0.  The existence check of such a segment answers
    false without a query when either segment decodes to 0 and raises
    the same error otherwise. *)
Theorem read_absent_pid (rp : Z -> option proc) (path : string)
        (pre : list string) (seg info : string) (size offset : Z) :
  rp (getPid seg) = None ->
  PyStr.split path = (pre ++ [seg; info])%list ->
  In info infoFiles ->
  read rp path size offset
  = (if getPid seg =? 0 then ([], Ret (PyInt (- ENOENT)))
     else ([EvReadprocByPid (getPid seg)], Raise ProcpyError))
  /\ forall parent,
      isExist rp parent seg
      = (if (getPid parent =? 0) || (getPid seg =? 0) then ([], Ret false)
         else ([EvReadprocByPid (getPid seg)], Raise ProcpyError)).
Proof.
  intros Hnone Hs HIn. split.
  - destruct (Z.eqb_spec (getPid seg) 0) as [E|NE].
    + unfold read.
      rewrite (path_with_info_not_root path pre seg info Hs HIn).
      rewrite Hs, item_neg_last2, bind_ret_l, (find_info_In info HIn).
      rewrite item_neg_second, bind_ret_l, E. reflexivity.
    + rewrite (read_attribute rp path pre seg info size offset Hs HIn NE).
      rewrite (getFileInfo_none rp _ info Hnone). reflexivity.
  - intros parent. unfold isExist.
    destruct ((getPid parent =? 0) || (getPid seg =? 0)); [reflexivity|].
    rewrite (getProcessInfo_none rp _ Hnone). reflexivity.
Qed.

Lemma read_absent_pid_witness :
  read (Sample.lookup Sample.table_empty) "/init(1)/sh(42)/CPU" 64 0
  = ([EvReadprocByPid 42], Raise ProcpyError).
Proof.
  exact (proj1 (read_absent_pid (Sample.lookup Sample.table_empty)
                  "/init(1)/sh(42)/CPU" [""; "init(1)"] "sh(42)" "CPU" 64 0
                  eq_refl eq_refl
                  (or_intror (or_intror (or_introl eq_refl))))).
Defined.

(** C6 as stated fails: with no record for pid 42, [read] ends with an
    exception instead of returning ENOENT, and so does the existence
    check of the directory segment. *)
Lemma read_vanished_process_raises :
  Sample.lookup Sample.table_empty 42 = None
  /\ getPid "sh(42)" = 42
  /\ read (Sample.lookup Sample.table_empty) "/init(1)/sh(42)/CPU" 64 0
     = ([EvReadprocByPid 42], Raise ProcpyError)
  /\ outcome (read (Sample.lookup Sample.table_empty)
                   "/init(1)/sh(42)/CPU" 64 0)
     <> Ret (PyInt (- ENOENT))
  /\ isExist (Sample.lookup Sample.table_empty) "init(1)" "sh(42)"
     = ([EvReadprocByPid 42], Raise ProcpyError).
Proof.
  repeat split; try reflexivity. vm_compute. discriminate.
Qed.

(* ================================================================== *)
(** * [readdir] *)

(** C7 (amended): [readdir] never fails with ENOENT.  For every path
    other than the root path, whether or not it resolves, it reads the
    process table once and yields [.], [..], the eight attribute names
    as read-only regular files, and one directory entry for every
    process whose parent identifier equals the identifier decoded from
    the final segment (0 when the segment does not decode). *)
Theorem readdir_any_path_lists (tbl : list proc) (path : string)
        (offset : Z) (pre : list string) (seg : string) :
  path <> "/" ->
  PyStr.split path = (pre ++ [seg])%list ->
  readdir tbl path offset
  = ([EvReadproc],
     Ret ([mkDirentry "." 0; mkDirentry ".." 0]
            ++ List.map (fun info => mkDirentry info (Z.lor S_IFREG 292))
                        infoFiles
            ++ List.map (fun child =>
                           mkDirentry (makeProcName (cmd child) (tid child))
                                      S_IFDIR)
                        (List.filter (fun p => ppid p =? getPid seg) tbl))%list).
Proof.
  intros Hne Hs. unfold readdir.
  apply String.eqb_neq in Hne. rewrite Hne.
  rewrite Hs, item_neg_last, bind_ret_l.
  reflexivity.
Qed.

Lemma readdir_any_path_lists_witness :
  exists l,
    readdir Sample.table_A "/init(1)/ghost(99)" 0 = ([EvReadproc], Ret l)
    /\ List.length l = 10%nat.
Proof.
  eexists. split.
  - apply (readdir_any_path_lists Sample.table_A "/init(1)/ghost(99)" 0
             [""; "init(1)"] "ghost(99)").
    + discriminate.
    + reflexivity.
  - reflexivity.
Defined.

(** C7 as stated fails: a path whose final segment does not decode,
    and a path whose final segment decodes to an absent pid, both yield
    entries. *)
Lemma readdir_unresolved_path_yields :
  Spec.resolves_to_directory (Sample.lookup Sample.table_A) "/nope" = false
  /\ getPid "nope" = 0
  /\ readdir Sample.table_A "/nope" 0
     = ([EvReadproc],
        Ret ([mkDirentry "." 0; mkDirentry ".." 0]
               ++ List.map (fun info => mkDirentry info 33060) infoFiles
               ++ [mkDirentry "init(1)" S_IFDIR])%list)
  /\ Spec.resolves_to_directory (Sample.lookup Sample.table_A)
       "/init(1)/ghost(99)" = false
  /\ Sample.lookup Sample.table_A 99 = None
  /\ readdir Sample.table_A "/init(1)/ghost(99)" 0
     = ([EvReadproc],
        Ret ([mkDirentry "." 0; mkDirentry ".." 0]
               ++ List.map (fun info => mkDirentry info 33060) infoFiles)%list).
Proof. repeat split; reflexivity. Qed.

(** C8 (amended): at the root path [readdir] yields, after [.] and
    [..], exactly one entry, the fixed segment [init(1)] typed as a
    directory, for every snapshot and without reading the process
    table, whatever the command name of pid 1 is. *)
Theorem readdir_root_fixed_entry (tbl : list proc) (offset : Z) :
  readdir tbl "/" offset
  = ([], Ret [mkDirentry "." 0; mkDirentry ".." 0;
              mkDirentry "init(1)" S_IFDIR]).
Proof. reflexivity. Qed.

(** C8 as stated fails: when pid 1 runs [systemd] the root listing
    still names [init(1)], not the segment that encodes the current
    command name. *)
Lemma readdir_root_ignores_command_name :
  Sample.lookup Sample.table_systemd 1 = Some Sample.p_systemd
  /\ makeProcName (cmd Sample.p_systemd) (tid Sample.p_systemd)
     = "systemd(1)"
  /\ readdir Sample.table_systemd "/" 0
     = ([], Ret [mkDirentry "." 0; mkDirentry ".." 0;
                 mkDirentry "init(1)" S_IFDIR])
  /\ outcome (readdir Sample.table_systemd "/" 0)
     <> Ret [mkDirentry "." 0; mkDirentry ".." 0;
             mkDirentry (makeProcName (cmd Sample.p_systemd)
                                      (tid Sample.p_systemd)) S_IFDIR].
Proof.
  repeat split; try reflexivity. vm_compute. discriminate.
Qed.

(* ================================================================== *)
(** * Further properties of the path codec *)

Lemma plus_word_none (s : string) : forall taken,
  all_chars (not_char "(") s = true ->
  Re.plus Re.is_word k_word taken s = None.
Proof.
  induction s as [|c s IH]; intros taken Hs; [reflexivity|].
  cbn [all_chars] in Hs. apply andb_prop in Hs. destruct Hs as [Hc Hs].
  rewrite plus_cons. destruct (Re.is_word c); [|reflexivity].
  rewrite (IH _ Hs).
  destruct s as [|c' s']; [reflexivity|].
  cbn [all_chars] in Hs. apply andb_prop in Hs. destruct Hs as [Hc' _].
  unfold not_char in Hc'. apply negb_true_iff in Hc'.
  cbn [Re.lit]. now rewrite Hc'.
Qed.

Lemma search_no_paren (s : string) :
  all_chars (not_char "(") s = true -> Re.search s = None.
Proof.
  induction s as [|c s IH]; intros Hs; [reflexivity|].
  cbn [Re.search]. unfold Re.match_here.
  rewrite (plus_word_none _ "" Hs).
  cbn [all_chars] in Hs. apply andb_prop in Hs. destruct Hs as [_ Hs].
  exact (IH Hs).
Qed.

(** A segment without an opening parenthesis (an attribute name, the
    empty segment of a trailing slash, a bare command name) does not
    decode: its identifier is 0. *)
Theorem getPid_without_paren (s : string) :
  all_chars (not_char "(") s = true -> getPid s = 0.
Proof.
  intros Hs. unfold getPid. now rewrite (search_no_paren s Hs).
Qed.

Lemma getPid_without_paren_witness : getPid "COMMAND" = 0.
Proof. apply (getPid_without_paren "COMMAND"). reflexivity. Defined.

(** Only the name right before the parenthesis and the digits inside
    matter: after a prefix without [(] that ends in a word character,
    the digits [d] are decoded as a decimal number, leading zeros
    included, whatever follows the closing parenthesis. *)
Theorem getPid_digits_in_context (n d rest : string) :
  all_chars (not_char "(") n = true ->
  ends_with Re.is_word n = true ->
  all_chars Re.is_digit d = true ->
  d <> "" ->
  getPid (n ++ "(" ++ d ++ ")" ++ rest) = PyStr.int d.
Proof.
  intros Hn He Hd Hne. unfold getPid.
  change (n ++ "(" ++ d ++ ")" ++ rest)
    with (n ++ String "(" (d ++ String ")" rest)).
  now rewrite (search_encoded d rest n Hd Hne Hn He).
Qed.

Lemma getPid_digits_in_context_witness :
  getPid "my-sh(0042)/USER" = 42.
Proof.
  apply (getPid_digits_in_context "my-sh" "0042" "/USER");
    [reflexivity | reflexivity | reflexivity | discriminate].
Defined.

(** The decoded identifier is never negative. *)
Lemma getPid_nonneg (s : string) : 0 <= getPid s.
Proof.
  unfold getPid. destruct (Re.search s); [|lia].
  unfold PyStr.int. lia.
Qed.

(** ** [split] on composed paths *)

Lemma split_app (a b : string) :
  PyStr.split (a ++ String "/" b) = (PyStr.split a ++ PyStr.split b)%list.
Proof.
  induction a as [|c a IH]; [reflexivity|].
  cbn [append PyStr.split]. rewrite IH.
  destruct (Ascii.eqb c "/"); [reflexivity|].
  destruct (PyStr.split a) as [|h t] eqn:E; [|reflexivity].
  exfalso. exact (split_not_nil a E).
Qed.

Lemma split_no_slash (b : string) :
  all_chars (not_char "/") b = true -> PyStr.split b = [b].
Proof.
  induction b as [|c b IH]; intros Hb; [reflexivity|].
  cbn [all_chars] in Hb. apply andb_prop in Hb. destruct Hb as [Hc Hb].
  unfold not_char in Hc. apply negb_true_iff in Hc.
  cbn [PyStr.split]. rewrite Hc, (IH Hb). reflexivity.
Qed.

(** Appending one slash-free segment to a path appends it to the
    segments. *)
Lemma split_child (path seg : string) :
  all_chars (not_char "/") seg = true ->
  PyStr.split (path ++ "/" ++ seg) = (PyStr.split path ++ [seg])%list.
Proof.
  intros Hs. change (path ++ "/" ++ seg) with (path ++ String "/" seg).
  now rewrite split_app, (split_no_slash seg Hs).
Qed.

(* ================================================================== *)
(** * Further properties of [rmdir] and [read] *)

Lemma str_positive_digits (pid : Z) :
  0 < pid -> all_chars Re.is_digit (PyStr.str pid) = true.
Proof.
  intros H. rewrite (str_nonneg pid) by lia.
  exact (proj1 (digits_spec (Z.to_N pid))).
Qed.

(** [rmdir] has two outcomes only, for every path: EINVAL without any
    external call, or success after one command [kill -9 N] in which
    [N] is the decimal numeral of a positive number.  No other text of
    the path reaches the command, and the call never raises. *)
Theorem rmdir_outcomes (path : string) :
  rmdir path = ([], Ret (PyInt (- EINVAL)))
  \/ exists pid,
      0 < pid
      /\ all_chars Re.is_digit (PyStr.str pid) = true
      /\ rmdir path
         = ([EvSystem ("kill -9 " ++ PyStr.str pid)], Ret (PyInt 0)).
Proof.
  destruct (split_snoc path) as (pre & seg & Hs).
  unfold rmdir. rewrite Hs, item_neg_last, bind_ret_l.
  destruct (String.eqb seg "init(1)"); [left; reflexivity|].
  destruct (Z.eqb_spec (getPid seg) 0) as [E|NE]; [left; reflexivity|].
  right. exists (getPid seg).
  assert (Hpos : 0 < getPid seg) by (pose proof (getPid_nonneg seg); lia).
  repeat split; [exact Hpos | exact (str_positive_digits _ Hpos)].
Qed.

(** [read] answers ENOENT without consulting the provider whenever
    the final segment of the path is not an attribute name: the root,
    every directory path, every unknown file name. *)
Theorem read_not_attribute (rp : Z -> option proc) (path : string)
        (pre : list string) (seg : string) (size offset : Z) :
  PyStr.split path = (pre ++ [seg])%list ->
  ~ In seg infoFiles ->
  read rp path size offset = ([], Ret (PyInt (- ENOENT))).
Proof.
  intros Hs Hn. unfold read.
  destruct (String.eqb path "/"); [reflexivity|].
  rewrite Hs, item_neg_last, bind_ret_l.
  destruct (find_info seg) as [info|] eqn:F; [|reflexivity].
  apply find_info_Some in F. destruct F as [<- HIn]. contradiction.
Qed.

Lemma read_not_attribute_witness :
  read (Sample.lookup Sample.table_A) "/init(1)/sh(42)" 64 0
  = ([], Ret (PyInt (- ENOENT))).
Proof.
  apply (read_not_attribute (Sample.lookup Sample.table_A)
           "/init(1)/sh(42)" [""; "init(1)"] "sh(42)" 64 0 eq_refl).
  simpl. intuition discriminate.
Defined.

(* ================================================================== *)
(** * Further properties of [readdir] *)

Lemma readdir_entries (tbl : list proc) (path : string) (offset : Z)
      (pre : list string) (seg : string) :
  path <> "/" ->
  PyStr.split path = (pre ++ [seg])%list ->
  readdir tbl path offset
  = ([EvReadproc],
     Ret ([mkDirentry "." 0; mkDirentry ".." 0]
            ++ List.map (fun info => mkDirentry info (Z.lor S_IFREG 292))
                        infoFiles
            ++ List.map (fun child =>
                           mkDirentry (makeProcName (cmd child) (tid child))
                                      S_IFDIR)
                        (List.filter (fun p => ppid p =? getPid seg)
                                     tbl))%list).
Proof.
  intros Hne Hs. unfold readdir.
  apply String.eqb_neq in Hne. rewrite Hne.
  rewrite Hs, item_neg_last, bind_ret_l.
  reflexivity.
Qed.

(** Below the root, the directory entries of a listing are exactly the
    encoded children of the identifier decoded from the final segment:
    every process of the table with that parent identifier is listed,
    nothing else is listed as a directory, and the listing has ten
    entries besides them. *)
Theorem readdir_directory_entries (tbl : list proc) (path : string)
        (offset : Z) (pre : list string) (seg : string) :
  path <> "/" ->
  PyStr.split path = (pre ++ [seg])%list ->
  exists l,
    readdir tbl path offset = ([EvReadproc], Ret l)
    /\ (forall name,
           In (mkDirentry name S_IFDIR) l
           <-> exists p, In p tbl /\ ppid p = getPid seg
                         /\ name = makeProcName (cmd p) (tid p))
    /\ List.length l
       = (10 + List.length
                 (List.filter (fun p => (ppid p =? getPid seg)%Z) tbl))%nat.
Proof.
  intros Hne Hs. eexists. split; [exact (readdir_entries _ _ _ _ _ Hne Hs)|].
  split.
  - intros name. rewrite !in_app_iff.
    split.
    + intros [H|[H|H]].
      * cbn in H. unfold S_IFDIR in H.
        repeat (destruct H as [H|H]; [discriminate H|]). contradiction.
      * apply in_map_iff in H. destruct H as (info & E & _).
        discriminate E.
      * apply in_map_iff in H. destruct H as (p & E & HIn).
        apply filter_In in HIn.
        destruct HIn as [HIn Hpp]. apply Z.eqb_eq in Hpp.
        exists p. repeat split; [exact HIn | exact Hpp |].
        now injection E as <-.
    + intros (p & HIn & Hpp & ->). right. right.
      apply in_map_iff. exists p. split; [reflexivity|].
      apply filter_In. split; [exact HIn | now apply Z.eqb_eq].
  - rewrite !length_app, !length_map. reflexivity.
Qed.

Lemma readdir_directory_entries_witness :
  exists l,
    readdir Sample.table_A "/init(1)" 0 = ([EvReadproc], Ret l)
    /\ In (mkDirentry "sh(42)" S_IFDIR) l
    /\ List.length l = 11%nat.
Proof.
  destruct (readdir_directory_entries Sample.table_A "/init(1)" 0 [""]
              "init(1)") as (l & E & Hdir & Hlen);
    [discriminate | reflexivity |].
  exists l. split; [exact E|]. split.
  - apply Hdir. exists Sample.p_sh.
    repeat split. simpl. tauto.
  - exact Hlen.
Defined.

(* ================================================================== *)
(** * Properties of [getattr] *)

Lemma getattr_directory_branch (rp : Z -> option proc) (path : string)
      (pre : list string) (parent seg : string) :
  PyStr.split path = (pre ++ [parent; seg])%list ->
  ~ In seg infoFiles ->
  path <> "/" -> path <> "/init(1)" ->
  getattr rp path
  = bind (isExist rp parent seg)
         (fun ok =>
            if ok then
              ret (PyStatV (mkStat (Z.lor S_IFDIR 365) 0 0 1 0 0 0 0 0 0 0 0 0))
            else ret (PyInt (- ENOENT))).
Proof.
  intros Hs Hn H1 H2. unfold getattr.
  rewrite Hs, item_neg_last2, bind_ret_l.
  destruct (find_info seg) as [info|] eqn:F.
  { apply find_info_Some in F. destruct F as [<- HIn]. contradiction. }
  apply String.eqb_neq in H1, H2. rewrite H1, H2.
  rewrite item_neg_second, bind_ret_l. reflexivity.
Qed.

Lemma getattr_attribute_branch (rp : Z -> option proc) (path : string)
      (pre : list string) (seg info : string) :
  PyStr.split path = (pre ++ [seg; info])%list ->
  In info infoFiles ->
  getattr rp path
  = bind (getFileInfo rp (getPid seg) info)
         (fun text =>
            ret (PyStatV (mkStat (Z.lor S_IFREG 292) 0 0 0 0 0
                                 (Z.of_nat (String.length text) + 1)
                                 0 0 0 0 0 0))).
Proof.
  intros Hs HIn. unfold getattr.
  rewrite Hs, item_neg_last2, bind_ret_l, (find_info_In info HIn).
  rewrite item_neg_second, bind_ret_l. reflexivity.
Qed.

Lemma getPid_empty : getPid "" = 0.
Proof. reflexivity. Qed.

Lemma decodable_parent_not_top (path : string) (pre : list string)
      (parent seg : string) :
  PyStr.split path = (pre ++ [parent; seg])%list ->
  getPid parent <> 0 ->
  path <> "/" /\ path <> "/init(1)".
Proof.
  intros Hs Hp.
  assert (Hlen : forall l : list string,
             l = (pre ++ [parent; seg])%list -> List.length l = 2%nat ->
             l = [parent; seg]).
  { intros l -> Hl. rewrite length_app in Hl. cbn in Hl.
    destruct pre; [reflexivity | cbn in Hl; lia]. }
  split; intros ->; cbn in Hs;
    apply Hlen in Hs; try reflexivity;
    injection Hs as <- _; apply Hp; reflexivity.
Qed.

(** For a directory path whose last two segments both decode,
    [getattr] fetches the record of the last one and reports a
    directory (mode 0555, one link) exactly when the recorded parent
    identifier is the one the preceding segment decodes to, ENOENT
    otherwise.  Only this one edge is checked: the segments further up
    play no part. *)
Theorem getattr_checks_one_edge (rp : Z -> option proc) (path : string)
        (pre : list string) (parent seg : string) (p : proc) :
  PyStr.split path = (pre ++ [parent; seg])%list ->
  ~ In seg infoFiles ->
  getPid parent <> 0 ->
  getPid seg <> 0 ->
  rp (getPid seg) = Some p ->
  getattr rp path
  = ([EvReadprocByPid (getPid seg)],
     Ret (if ppid p =? getPid parent
          then PyStatV (mkStat (Z.lor S_IFDIR 365) 0 0 1 0 0 0 0 0 0 0 0 0)
          else PyInt (- ENOENT))).
Proof.
  intros Hs Hn Hpar Hseg Hp.
  destruct (decodable_parent_not_top path pre parent seg Hs Hpar) as [H1 H2].
  rewrite (getattr_directory_branch rp path pre parent seg Hs Hn H1 H2).
  unfold isExist.
  destruct (Z.eqb_spec (getPid parent) 0) as [E|_]; [contradiction|].
  destruct (Z.eqb_spec (getPid seg) 0) as [E|_]; [contradiction|].
  cbn [orb]. rewrite (getProcessInfo_some rp _ p Hp). cbn [bind].
  destruct (ppid p =? getPid parent); reflexivity.
Qed.

Lemma getattr_checks_one_edge_witness :
  getattr (Sample.lookup Sample.table_A) "/no(7)/such(9)/init(1)/sh(42)"
  = ([EvReadprocByPid 42],
     Ret (PyStatV (mkStat (Z.lor S_IFDIR 365) 0 0 1 0 0 0 0 0 0 0 0 0))).
Proof.
  apply (getattr_checks_one_edge (Sample.lookup Sample.table_A)
           "/no(7)/such(9)/init(1)/sh(42)" [""; "no(7)"; "such(9)"]
           "init(1)" "sh(42)" Sample.p_sh eq_refl).
  - simpl. intuition discriminate.
  - vm_compute. discriminate.
  - vm_compute. discriminate.
  - reflexivity.
Defined.

(** When the last or the second-to-last segment of a directory path
    does not decode, [getattr] answers ENOENT without consulting the
    provider; in particular [/init(1)] is the only directory right
    under the root, since the segment before a top-level name is
    empty. *)
Theorem getattr_undecodable_segment (rp : Z -> option proc) (path : string)
        (pre : list string) (parent seg : string) :
  PyStr.split path = (pre ++ [parent; seg])%list ->
  ~ In seg infoFiles ->
  path <> "/" -> path <> "/init(1)" ->
  getPid parent = 0 \/ getPid seg = 0 ->
  getattr rp path = ([], Ret (PyInt (- ENOENT))).
Proof.
  intros Hs Hn H1 H2 Hz.
  rewrite (getattr_directory_branch rp path pre parent seg Hs Hn H1 H2).
  unfold isExist.
  assert (E : (getPid parent =? 0) || (getPid seg =? 0) = true).
  { apply orb_true_iff. destruct Hz as [Hz|Hz]; rewrite Hz; auto. }
  rewrite E. reflexivity.
Qed.

Lemma getattr_undecodable_segment_witness :
  getattr (Sample.lookup Sample.table_systemd) "/systemd(1)"
  = ([], Ret (PyInt (- ENOENT))).
Proof.
  apply (getattr_undecodable_segment (Sample.lookup Sample.table_systemd)
           "/systemd(1)" [] "" "systemd(1)" eq_refl).
  - simpl. intuition discriminate.
  - discriminate.
  - discriminate.
  - left. reflexivity.
Defined.

Lemma length_append (s t : string) :
  String.length (s ++ t) = (String.length s + String.length t)%nat.
Proof. induction s as [|c s IH]; simpl; [reflexivity | now rewrite IH]. Qed.

(** The size that [getattr] reports for an attribute file is the
    length of what [read] returns for it: both render the attribute
    with one provider query, and the size counts the final newline. *)
Theorem getattr_size_matches_read (rp : Z -> option proc) (path : string)
        (pre : list string) (seg info : string) (t : list event)
        (text : string) (size offset : Z) :
  PyStr.split path = (pre ++ [seg; info])%list ->
  In info infoFiles ->
  getPid seg <> 0 ->
  getFileInfo rp (getPid seg) info = (t, Ret text) ->
  exists st data,
    getattr rp path = (t, Ret (PyStatV st))
    /\ read rp path size offset = (t, Ret (PyString data))
    /\ st_size st = Z.of_nat (String.length data)
    /\ st_mode st = Z.lor S_IFREG 292.
Proof.
  intros Hs HIn Hpid Hg.
  rewrite (getattr_attribute_branch rp path pre seg info Hs HIn).
  rewrite (read_attribute rp path pre seg info size offset Hs HIn Hpid).
  rewrite Hg. cbn [bind ret]. rewrite app_nil_r.
  eexists. eexists. split; [reflexivity|]. split; [reflexivity|].
  split; [|reflexivity].
  cbn [st_size]. rewrite length_append. cbn [String.length PyStr.newline].
  lia.
Qed.

Lemma getattr_size_matches_read_witness :
  exists st data,
    getattr (Sample.lookup Sample.table_A) "/init(1)/sh(42)/COMMAND"
    = ([EvReadprocByPid 42], Ret (PyStatV st))
    /\ read (Sample.lookup Sample.table_A) "/init(1)/sh(42)/COMMAND" 64 0
       = ([EvReadprocByPid 42], Ret (PyString data))
    /\ st_size st = Z.of_nat (String.length data)
    /\ st_mode st = Z.lor S_IFREG 292.
Proof.
  apply (getattr_size_matches_read (Sample.lookup Sample.table_A)
           "/init(1)/sh(42)/COMMAND" [""; "init(1)"] "sh(42)" "COMMAND"
           [EvReadprocByPid 42] "/bin/sh -c sleep 1" 64 0).
  - reflexivity.
  - simpl. tauto.
  - vm_compute. discriminate.
  - reflexivity.
Defined.



(* ================================================================== *)
(** * From a listing to its entries *)

Lemma all_chars_impl (p q : ascii -> bool) (s : string) :
  (forall c, p c = true -> q c = true) ->
  all_chars p s = true -> all_chars q s = true.
Proof.
  intros Hpq. induction s as [|c s IH]; [reflexivity|].
  cbn [all_chars]. intros H. apply andb_prop in H. destruct H as [Hc Hs].
  now rewrite (Hpq c Hc), (IH Hs).
Qed.

Lemma digit_not_slash (c : ascii) :
  Re.is_digit c = true -> not_char "/" c = true.
Proof.
  intros H. unfold not_char. apply negb_true_iff.
  destruct (Ascii.eqb_spec c "/") as [->|]; [discriminate H | reflexivity].
Qed.

(** An encoded segment holds no slash when the name holds none. *)
Lemma makeProcName_no_slash (n : string) (i : Z) :
  all_chars (not_char "/") n = true -> 0 <= i ->
  all_chars (not_char "/") (makeProcName n i) = true.
Proof.
  intros Hn Hi. unfold makeProcName.
  rewrite all_chars_app, Hn.
  change ("(" ++ PyStr.str i ++ ")") with (String "(" (PyStr.str i ++ ")")).
  cbn [all_chars andb]. change (not_char "/" "(") with true. cbn [andb].
  rewrite all_chars_app.
  rewrite (all_chars_impl _ _ _ digit_not_slash).
  - reflexivity.
  - rewrite (str_nonneg i Hi). exact (proj1 (digits_spec _)).
Qed.

(** An encoded segment is never an attribute name. *)
Lemma makeProcName_not_info (n : string) (i : Z) :
  ~ In (makeProcName n i) infoFiles.
Proof.
  intros HIn.
  assert (H : all_chars (not_char "(") (makeProcName n i) = true).
  { unfold infoFiles in HIn. cbn [In] in HIn.
    repeat (destruct HIn as [<-|HIn]); try contradiction; reflexivity. }
  unfold makeProcName in H. rewrite all_chars_app in H.
  apply andb_prop in H. destruct H as [_ H].
  discriminate H.
Qed.

Lemma isExist_live (rp : Z -> option proc) (parent seg : string) (p : proc) :
  getPid parent <> 0 -> getPid seg <> 0 -> rp (getPid seg) = Some p ->
  isExist rp parent seg
  = ([EvReadprocByPid (getPid seg)], Ret (ppid p =? getPid parent)).
Proof.
  intros Hpar Hseg Hp. unfold isExist.
  destruct (Z.eqb_spec (getPid parent) 0) as [E|_]; [contradiction|].
  destruct (Z.eqb_spec (getPid seg) 0) as [E|_]; [contradiction|].
  cbn [orb]. rewrite (getProcessInfo_some rp _ p Hp). cbn [bind].
  destruct (ppid p =? getPid parent); reflexivity.
Qed.

(** What a listing shows can be used: for a directory path whose final
    segment decodes, every process of the table with that parent
    identifier, a positive identifier of its own and a valid command
    name that ends in a word character is listed under its encoded
    name; when the provider returns that record for its identifier,
    [getattr] on the path extended by the entry reports a directory and
    [read] of the [PID] file below it returns the decimal identifier. *)
Theorem listed_child_resolves (tbl : list proc) (rp : Z -> option proc)
        (path : string) (pre : list string) (seg : string) (child : proc)
        (size offset : Z) :
  PyStr.split path = (pre ++ [seg])%list ->
  getPid seg <> 0 ->
  In child tbl ->
  ppid child = getPid seg ->
  rp (tid child) = Some child ->
  0 < tid child ->
  valid_name (cmd child) = true ->
  ends_with Re.is_word (cmd child) = true ->
  (exists l,
      readdir tbl path offset = ([EvReadproc], Ret l)
      /\ In (mkDirentry (makeProcName (cmd child) (tid child)) S_IFDIR) l)
  /\ getattr rp (path ++ "/" ++ makeProcName (cmd child) (tid child))
     = ([EvReadprocByPid (tid child)],
        Ret (PyStatV (mkStat (Z.lor S_IFDIR 365) 0 0 1 0 0 0 0 0 0 0 0 0)))
  /\ read rp (path ++ "/" ++ makeProcName (cmd child) (tid child) ++ "/PID")
          size offset
     = ([EvReadprocByPid (tid child)],
        Ret (PyString (PyStr.str (tid child) ++ PyStr.newline))).
Proof.
  intros Hs Hseg HIn Hpp Hrp Htid Hv He.
  unfold valid_name in Hv.
  repeat (apply andb_prop in Hv; destruct Hv as [Hv ?]).
  set (entry := makeProcName (cmd child) (tid child)).
  assert (Hdec : getPid entry = tid child)
    by (apply getPid_makeProcName; [assumption | assumption | lia]).
  assert (Hslash : all_chars (not_char "/") entry = true)
    by (apply makeProcName_no_slash; [assumption | lia]).
  assert (Hninfo : ~ In entry infoFiles) by apply makeProcName_not_info.
  assert (Hroot : path <> "/").
  { intros ->. cbn in Hs.
    destruct pre as [|a [|b pre]]; cbn in Hs.
    - discriminate Hs.
    - injection Hs as _ <-. apply Hseg. reflexivity.
    - injection Hs as _ _ Hs. destruct pre; discriminate Hs. }
  assert (Hs2 : PyStr.split (path ++ "/" ++ entry)
                = (pre ++ [seg; entry])%list).
  { rewrite (split_child path entry Hslash), Hs, <- app_assoc. reflexivity. }
  assert (Hdecne : getPid entry <> 0) by lia.
  split; [|split].
  - eexists. split; [exact (readdir_entries tbl path offset pre seg Hroot Hs)|].
    rewrite !in_app_iff. right. right.
    apply in_map_iff. exists child. split; [reflexivity|].
    apply filter_In. split; [exact HIn | now apply Z.eqb_eq].
  - destruct (decodable_parent_not_top _ pre seg entry Hs2 Hseg) as [Ht1 Ht2].
    rewrite (getattr_directory_branch rp _ pre seg entry Hs2 Hninfo Ht1 Ht2).
    rewrite Hdec in Hdecne.
    assert (Hrp' : rp (getPid entry) = Some child) by (now rewrite Hdec).
    rewrite (isExist_live rp seg entry child Hseg
               ltac:(rewrite Hdec; exact Hdecne) Hrp').
    rewrite Hdec, Hpp, Z.eqb_refl. reflexivity.
  - assert (Hs3 : PyStr.split (path ++ "/" ++ entry ++ "/PID")
                  = ((pre ++ [seg]) ++ [entry; "PID"])%list).
    { change (path ++ "/" ++ entry ++ "/PID")
        with (path ++ String "/" (entry ++ String "/" "PID")).
      rewrite !split_app, Hs, (split_no_slash entry Hslash). reflexivity. }
    assert (HPID : In "PID" infoFiles) by (simpl; tauto).
    rewrite (read_attribute rp _ _ entry "PID" size offset Hs3 HPID Hdecne).
    unfold getFileInfo. rewrite Hdec, (getProcessInfo_some rp _ child Hrp).
    reflexivity.
Qed.

Lemma listed_child_resolves_witness :
  getattr (Sample.lookup Sample.table_A) "/init(1)/sh(42)"
  = ([EvReadprocByPid 42],
     Ret (PyStatV (mkStat (Z.lor S_IFDIR 365) 0 0 1 0 0 0 0 0 0 0 0 0)))
  /\ read (Sample.lookup Sample.table_A) "/init(1)/sh(42)/PID" 64 0
     = ([EvReadprocByPid 42], Ret (PyString ("42" ++ PyStr.newline))).
Proof.
  assert (H := listed_child_resolves Sample.table_A
                 (Sample.lookup Sample.table_A) "/init(1)" [""] "init(1)"
                 Sample.p_sh 64 0 eq_refl).
  assert (H1 : getPid "init(1)" <> 0) by (vm_compute; discriminate).
  assert (H2 : In Sample.p_sh Sample.table_A) by (simpl; tauto).
  assert (H3 : 0 < tid Sample.p_sh) by (vm_compute; reflexivity).
  specialize (H H1 H2 eq_refl eq_refl H3 eq_refl eq_refl).
  exact (proj2 H).
Defined.

(* ================================================================== *)
(** * External calls of the read-only callbacks *)

Lemma item_neg_cases {A : Type} (l : list A) (k : nat) :
  item_neg l k = raise IndexError \/ exists x, item_neg l k = ret x.
Proof.
  unfold item_neg. destruct (nth_error (rev l) (pred k)) as [x|];
    [right; exists x; reflexivity | left; reflexivity].
Qed.

Lemma item_cases {A : Type} (l : list A) (i : nat) :
  item l i = raise IndexError \/ exists x, item l i = ret x.
Proof.
  unfold item. destruct (nth_error l i) as [x|];
    [right; exists x; reflexivity | left; reflexivity].
Qed.

(** Rendering makes exactly one provider query, whatever its end. *)
Lemma getFileInfo_trace (rp : Z -> option proc) (pid : Z) (info : string) :
  exists r, getFileInfo rp pid info = ([EvReadprocByPid pid], r).
Proof.
  unfold getFileInfo, getProcessInfo.
  destruct (rp pid) as [p|]; [|eexists; reflexivity].
  cbn [emit bind ret app].
  repeat match goal with
         | |- context [if String.eqb info ?s then _ else _] =>
             destruct (String.eqb info s); [try (eexists; reflexivity)|]
         end; try (eexists; reflexivity).
  - destruct (item_cases (start p) 3) as [E|[x E]]; rewrite E;
      [eexists; reflexivity|].
    destruct (item_cases (start p) 4) as [E'|[y E']]; rewrite E';
      eexists; reflexivity.
  - destruct (item_cases (time p) 0) as [E|[x E]]; rewrite E;
      [eexists; reflexivity|].
    destruct (item_cases (time p) 1) as [E'|[y E']]; rewrite E';
      eexists; reflexivity.
Qed.

Lemma isExist_trace (rp : Z -> option proc) (parent seg : string) :
  exists r,
    isExist rp parent seg = ([], r)
    \/ isExist rp parent seg = ([EvReadprocByPid (getPid seg)], r).
Proof.
  unfold isExist, getProcessInfo.
  destruct ((getPid parent =? 0) || (getPid seg =? 0));
    [eexists; left; reflexivity|].
  destruct (rp (getPid seg)) as [p|]; [|eexists; right; reflexivity].
  cbn [emit bind ret app].
  destruct (negb (ppid p =? getPid parent)); eexists; right; reflexivity.
Qed.

(** The callbacks that only look never act: [readdir], [getattr],
    [open] and [read] make at most one call to the process-table
    reader each, [open] makes none, and none of them ever issues a
    system command, for every path and every table. *)
Theorem read_only_callbacks_calls (tbl : list proc) (rp : Z -> option proc)
        (path : string) (size offset flags : Z) :
  (trace (readdir tbl path offset) = []
   \/ trace (readdir tbl path offset) = [EvReadproc])
  /\ (trace (getattr rp path) = []
      \/ exists pid, trace (getattr rp path) = [EvReadprocByPid pid])
  /\ trace (open path flags) = []
  /\ (trace (read rp path size offset) = []
      \/ exists pid, trace (read rp path size offset) = [EvReadprocByPid pid]).
Proof.
  destruct (split_snoc path) as (pre & seg & Hs).
  repeat split.
  - unfold readdir. destruct (String.eqb path "/"); [left; reflexivity|].
    rewrite Hs, item_neg_last, bind_ret_l. right. reflexivity.
  - unfold getattr. rewrite Hs, item_neg_last, bind_ret_l.
    destruct (find_info seg) as [info|].
    + destruct (item_neg_cases (pre ++ [seg])%list 2) as [E|[x E]]; rewrite E;
        [left; reflexivity|].
      rewrite bind_ret_l.
      destruct (getFileInfo_trace rp (getPid x) info) as [[text|e] Hr];
        rewrite Hr; right; eexists; reflexivity.
    + destruct (String.eqb path "/"); [left; reflexivity|].
      destruct (String.eqb path "/init(1)"); [left; reflexivity|].
      destruct (item_neg_cases (pre ++ [seg])%list 2) as [E|[x E]]; rewrite E;
        [left; reflexivity|].
      rewrite bind_ret_l.
      destruct (isExist_trace rp x seg) as [[[|]|e] [Hr|Hr]]; rewrite Hr;
        try (left; reflexivity); right; eexists; reflexivity.
  - unfold open. destruct (String.eqb path "/"); [reflexivity|].
    rewrite Hs, item_neg_last, bind_ret_l.
    destruct (find_info seg); reflexivity.
  - unfold read. destruct (String.eqb path "/"); [left; reflexivity|].
    rewrite Hs, item_neg_last, bind_ret_l.
    destruct (find_info seg) as [info|]; [|left; reflexivity].
    destruct (item_neg_cases (pre ++ [seg])%list 2) as [E|[x E]]; rewrite E;
      [left; reflexivity|].
    rewrite bind_ret_l.
    destruct (getPid x =? 0); [left; reflexivity|].
    destruct (getFileInfo_trace rp (getPid x) info) as [[text|e] Hr];
      rewrite Hr; right; eexists; reflexivity.
Qed.

(* ================================================================== *)
(** * Rendering of [START] *)

Lemma digits_one (n : N) :
  (n < 10)%N -> PyStr.digits n = String (PyStr.digit_char n) EmptyString.
Proof.
  intros H. unfold PyStr.digits. rewrite digits_fuel_S.
  destruct (N.ltb_spec n 10); [reflexivity | lia].
Qed.

Lemma digits_two (n : N) :
  (10 <= n < 100)%N ->
  PyStr.digits n
  = String (PyStr.digit_char (n / 10))
           (String (PyStr.digit_char (n mod 10)) EmptyString).
Proof.
  intros [Hlo Hhi]. unfold PyStr.digits.
  assert (Hlog : (3 <= N.log2 n)%N).
  { change 3%N with (N.log2 8). apply N.log2_le_mono. lia. }
  destruct (N.to_nat (N.log2 n)) as [|k] eqn:E; [lia|].
  rewrite digits_fuel_S.
  destruct (N.ltb_spec n 10); [lia|].
  rewrite digits_fuel_S.
  assert (Hq : (n / 10 < 10)%N)
    by (apply N.Div0.div_lt_upper_bound; lia).
  destruct (N.ltb_spec (n / 10) 10); [reflexivity | lia].
Qed.

(** [%02d] on a number below one hundred is its two decimal digits. *)
Lemma fmt_d_two_digits (z : Z) :
  0 <= z < 100 ->
  PyStr.fmt_d true 2 z
  = String (PyStr.digit_char (Z.to_N (z / 10)))
           (String (PyStr.digit_char (Z.to_N (z mod 10))) EmptyString).
Proof.
  intros [Hlo Hhi]. unfold PyStr.fmt_d.
  destruct (Z.ltb_spec z 0); [lia|].
  rewrite (Z.abs_eq z Hlo).
  destruct (Z_lt_le_dec z 10) as [Hs|Hb].
  - rewrite digits_one by lia.
    rewrite (Z.div_small z 10), (Z.mod_small z 10) by lia. reflexivity.
  - rewrite digits_two by lia.
    rewrite Z2N.inj_div, Z2N.inj_mod by lia. reflexivity.
Qed.

(** For a record whose start time has an hour and a minute between 0
    and 99, the [START] attribute is exactly five characters: the two
    decimal digits of the hour, a colon, the two decimal digits of the
    minute. *)
Theorem start_rendering (rp : Z -> option proc) (pid : Z) (p : proc)
        (a0 a1 a2 h m : Z) (rest : list Z) :
  rp pid = Some p ->
  start p = a0 :: a1 :: a2 :: h :: m :: rest ->
  0 <= h < 100 ->
  0 <= m < 100 ->
  exists text,
    getFileInfo rp pid "START" = ([EvReadprocByPid pid], Ret text)
    /\ String.length text = 5%nat
    /\ text
       = String (PyStr.digit_char (Z.to_N (h / 10)))
           (String (PyStr.digit_char (Z.to_N (h mod 10)))
              (String ":"
                 (String (PyStr.digit_char (Z.to_N (m / 10)))
                    (String (PyStr.digit_char (Z.to_N (m mod 10)))
                       EmptyString)))).
Proof.
  intros Hp Hst Hh Hm. unfold getFileInfo.
  rewrite (getProcessInfo_some rp pid p Hp).
  cbn [bind String.eqb Ascii.eqb Bool.eqb]. rewrite Hst.
  unfold item. cbn [nth_error]. rewrite !bind_ret_l.
  rewrite (fmt_d_two_digits h Hh), (fmt_d_two_digits m Hm).
  eexists. split; [reflexivity|]. split; reflexivity.
Qed.

Lemma start_rendering_witness :
  exists text,
    getFileInfo (Sample.lookup Sample.table_A) 1 "START"
    = ([EvReadprocByPid 1], Ret text)
    /\ String.length text = 5%nat
    /\ text = "09:05".
Proof.
  destruct (start_rendering (Sample.lookup Sample.table_A) 1 Sample.p_init
              2024 1 1 9 5 [0; 0; 1; 0] eq_refl eq_refl)
    as (text & E & L & T); [lia | lia |].
  exists text. repeat split; [exact E | exact L | exact T].
Defined.

(* ================================================================== *)
(** * [procpy]: mapped files *)

Lemma existsb_eqb_false (x : string) (l : list string) :
  existsb (String.eqb x) l = false -> ~ In x l.
Proof.
  intros H HIn.
  assert (E : existsb (String.eqb x) l = true).
  { apply existsb_exists. exists x. split; [exact HIn | apply String.eqb_refl]. }
  rewrite E in H. discriminate.
Qed.

Lemma existsb_eqb_true (x : string) (l : list string) :
  existsb (String.eqb x) l = true -> In x l.
Proof.
  intros H. apply existsb_exists in H. destruct H as (y & HIn & E).
  apply String.eqb_eq in E. now subst y.
Qed.

Lemma getmaps_loop_NoDup (lines : list string) : forall maps,
  NoDup maps -> NoDup (Procpy.getmaps_loop lines maps).
Proof.
  induction lines as [|line rest IH]; intros maps Hnd; [exact Hnd|].
  cbn [Procpy.getmaps_loop].
  destruct (nth_error (Procpy.split_ws line) 5) as [fname|]; [|now apply IH].
  destruct (existsb (String.eqb fname) maps) eqn:E; [now apply IH|].
  apply IH. apply NoDup_app; [exact Hnd | repeat constructor; intros [] |].
  intros x Hx [<-|[]]. exact (existsb_eqb_false _ _ E Hx).
Qed.

Lemma getmaps_loop_In (lines : list string) : forall maps f,
  In f (Procpy.getmaps_loop lines maps)
  <-> In f maps
      \/ exists line, In line lines
                      /\ nth_error (Procpy.split_ws line) 5 = Some f.
Proof.
  induction lines as [|line rest IH]; intros maps f.
  - cbn. split; [auto | intros [H|(l & [] & _)]; exact H].
  - cbn [Procpy.getmaps_loop].
    destruct (nth_error (Procpy.split_ws line) 5) as [fname|] eqn:N.
    + destruct (existsb (String.eqb fname) maps) eqn:E.
      * rewrite IH. split.
        -- intros [H|(l & Hl & Hn)]; [left; exact H|].
           right. exists l. split; [right; exact Hl | exact Hn].
        -- intros [H|(l & [<-|Hl] & Hn)]; [left; exact H | |].
           ++ left. rewrite N in Hn. injection Hn as <-.
              exact (existsb_eqb_true _ _ E).
           ++ right. exists l. split; assumption.
      * rewrite IH, in_app_iff. split.
        -- intros [[H|[<-|[]]]|(l & Hl & Hn)].
           ++ left; exact H.
           ++ right. exists line. split; [left; reflexivity | exact N].
           ++ right. exists l. split; [right; exact Hl | exact Hn].
        -- intros [H|(l & [<-|Hl] & Hn)].
           ++ left; left; exact H.
           ++ left; right. rewrite N in Hn. injection Hn as <-.
              left; reflexivity.
           ++ right. exists l. split; assumption.
    + rewrite IH. split.
      * intros [H|(l & Hl & Hn)]; [left; exact H|].
        right. exists l. split; [right; exact Hl | exact Hn].
      * intros [H|(l & [<-|Hl] & Hn)]; [left; exact H | |].
        -- rewrite N in Hn. discriminate.
        -- right. exists l. split; assumption.
Qed.

(** [__getmaps__] never lists a file twice, whatever the maps file
    holds and also when it cannot be opened. *)
Theorem getmaps_no_duplicates (read_lines : string -> option (list string))
        (pid : Z) :
  NoDup (Procpy.__getmaps__ read_lines pid).
Proof.
  unfold Procpy.__getmaps__.
  destruct (read_lines _) as [lines|]; [|constructor].
  apply getmaps_loop_NoDup. constructor.
Qed.

(** When the maps file of the process can be read, [__getmaps__]
    returns exactly the sixth blank-separated fields of its lines:
    lines with fewer fields (anonymous mappings) contribute nothing. *)
Theorem getmaps_sixth_fields (read_lines : string -> option (list string))
        (pid : Z) (lines : list string) (f : string) :
  read_lines ("/proc/" ++ PyStr.fmt_d false 0 pid ++ "/maps") = Some lines ->
  (In f (Procpy.__getmaps__ read_lines pid)
   <-> exists line, In line lines
                    /\ nth_error (Procpy.split_ws line) 5 = Some f).
Proof.
  intros H. unfold Procpy.__getmaps__. rewrite H.
  rewrite getmaps_loop_In. cbn [In]. tauto.
Qed.

Lemma getmaps_sixth_fields_witness :
  In "/lib/libc.so" (Procpy.__getmaps__ SampleProc.read_lines 42).
Proof.
  apply (getmaps_sixth_fields SampleProc.read_lines 42 SampleProc.maps_lines
           "/lib/libc.so" eq_refl).
  exists ("7f1e5000-7f1e7000 r-xp 00000000 08:01 977 /lib/libc.so"
            ++ PyStr.newline).
  split; [simpl; tauto | reflexivity].
Defined.

(** When the maps file cannot be opened the result is empty. *)
Lemma getmaps_unreadable (read_lines : string -> option (list string))
      (pid : Z) :
  read_lines ("/proc/" ++ PyStr.fmt_d false 0 pid ++ "/maps") = None ->
  Procpy.__getmaps__ read_lines pid = [].
Proof. intros H. unfold Procpy.__getmaps__. now rewrite H. Qed.

Lemma fields_from_clean (s : string) : forall cur f,
  all_chars Procpy.not_space cur = true ->
  In f (Procpy.fields_from cur s) ->
  f <> "" /\ all_chars Procpy.not_space f = true.
Proof.
  induction s as [|c s IH]; intros cur f Hcur HIn.
  - cbn [Procpy.fields_from] in HIn.
    destruct cur as [|a cur]; [contradiction|].
    destruct HIn as [<-|[]]. split; [discriminate | exact Hcur].
  - cbn [Procpy.fields_from] in HIn.
    destruct (Procpy.is_space c) eqn:Hc.
    + destruct cur as [|a cur].
      * exact (IH "" f eq_refl HIn).
      * destruct HIn as [<-|HIn]; [split; [discriminate | exact Hcur]|].
        exact (IH "" f eq_refl HIn).
    + apply (IH (cur ++ String c "") f); [|exact HIn].
      rewrite all_chars_app, Hcur. cbn [all_chars].
      unfold Procpy.not_space. now rewrite Hc.
Qed.

(** Every name that [__getmaps__] returns is non-empty and free of
    white space: a mapped path that holds a blank is cut at it. *)
Theorem getmaps_names_clean (read_lines : string -> option (list string))
        (pid : Z) (f : string) :
  In f (Procpy.__getmaps__ read_lines pid) ->
  f <> "" /\ all_chars Procpy.not_space f = true.
Proof.
  unfold Procpy.__getmaps__.
  destruct (read_lines _) as [lines|]; [|intros []].
  intros H. apply getmaps_loop_In in H.
  destruct H as [[]|(line & _ & Hn)].
  apply nth_error_In in Hn.
  exact (fields_from_clean line "" f eq_refl Hn).
Qed.

Lemma getmaps_names_clean_witness :
  "/bin/cat" <> "" /\ all_chars Procpy.not_space "/bin/cat" = true.
Proof.
  apply (getmaps_names_clean SampleProc.read_lines 42 "/bin/cat").
  simpl. tauto.
Defined.

(* ================================================================== *)
(** * [procpy]: open files *)

Lemma dict_get_set (k k' : Z) (v : string) (d : list (Z * string)) :
  Procpy.dict_get k (Procpy.dict_set k' v d)
  = if k' =? k then Some v else Procpy.dict_get k d.
Proof.
  induction d as [|[a b] d IH]; cbn [Procpy.dict_set Procpy.dict_get].
  - reflexivity.
  - destruct (Z.eqb_spec a k') as [->|Hne].
    + cbn [Procpy.dict_get]. destruct (k' =? k); reflexivity.
    + cbn [Procpy.dict_get]. destruct (Z.eqb_spec a k) as [->|Hak].
      * destruct (Z.eqb_spec k' k) as [->|_]; [contradiction | reflexivity].
      * exact IH.
Qed.

Section Fds.

Variable readlink : string -> option string.
Variable int_other : string -> option Z.
Variable pid : Z.

Local Abbreviation fd_path e :=
  ("/proc/" ++ PyStr.fmt_d false 0 pid ++ "/fd/" ++ e).

(** Where a binding of the result comes from. *)
Local Abbreviation from_entry es k v :=
  (exists e, In e es /\ e <> "." /\ e <> ".."
             /\ Procpy.py_int int_other e = Some k
             /\ readlink (fd_path e) = Some v).

Lemma getfds_loop_sound (es : list string) : forall fds k v,
  Procpy.dict_get k (Procpy.getfds_loop readlink int_other pid es fds)
  = Some v ->
  Procpy.dict_get k fds = Some v \/ from_entry es k v.
Proof.
  induction es as [|e es IH]; intros fds k v H; [left; exact H|].
  cbn [Procpy.getfds_loop] in H.
  assert (Hweak : forall k v, from_entry es k v -> from_entry (e :: es) k v).
  { intros k0 v0 (e0 & HIn & Hrest). exists e0. split; [right; exact HIn|].
    exact Hrest. }
  destruct (String.eqb_spec e ".") as [->|Hd1].
  { cbn [orb] in H. destruct (IH _ _ _ H); [left | right]; auto. }
  destruct (String.eqb_spec e "..") as [->|Hd2].
  { cbn [orb] in H. destruct (IH _ _ _ H); [left | right]; auto. }
  cbn [orb] in H.
  destruct (Procpy.py_int int_other e) as [fd|] eqn:Hint.
  2:{ destruct (IH _ _ _ H); [left | right]; auto. }
  destruct (readlink (fd_path e)) as [target|] eqn:Hl.
  2:{ destruct (IH _ _ _ H); [left | right]; auto. }
  destruct (IH _ _ _ H) as [Hg|Hf]; [|right; auto].
  rewrite dict_get_set in Hg.
  destruct (Z.eqb_spec fd k) as [->|Hne]; [|left; exact Hg].
  injection Hg as <-. right. exists e.
  repeat split; [left; reflexivity | exact Hd1 | exact Hd2 | exact Hint
                 | exact Hl].
Qed.

Lemma getfds_loop_keeps (es : list string) : forall fds k,
  Procpy.dict_get k fds <> None ->
  Procpy.dict_get k (Procpy.getfds_loop readlink int_other pid es fds)
  <> None.
Proof.
  induction es as [|e es IH]; intros fds k H; [exact H|].
  cbn [Procpy.getfds_loop].
  destruct (String.eqb e "." || String.eqb e ".."); [now apply IH|].
  destruct (Procpy.py_int int_other e) as [fd|]; [|now apply IH].
  destruct (readlink _) as [target|]; [|now apply IH].
  apply IH. rewrite dict_get_set.
  destruct (fd =? k); [discriminate | exact H].
Qed.

Lemma getfds_loop_complete (es : list string) : forall fds e,
  In e es ->
  e <> "" -> all_chars Re.is_digit e = true ->
  readlink (fd_path e) <> None ->
  Procpy.dict_get (PyStr.int e)
                  (Procpy.getfds_loop readlink int_other pid es fds)
  <> None.
Proof.
  induction es as [|a es IH]; intros fds e HIn Hne Hd Hl; [contradiction|].
  cbn [Procpy.getfds_loop].
  destruct HIn as [->|HIn].
  - assert (Hdot : String.eqb e "." || String.eqb e ".." = false).
    { destruct (String.eqb_spec e ".") as [->|_]; [discriminate Hd|].
      destruct (String.eqb_spec e "..") as [->|_]; [discriminate Hd|].
      reflexivity. }
    rewrite Hdot. unfold Procpy.py_int. rewrite Hd.
    apply String.eqb_neq in Hne. rewrite Hne. cbn [negb andb].
    destruct (readlink (fd_path e)) as [target|]; [|contradiction].
    apply getfds_loop_keeps. rewrite dict_get_set, Z.eqb_refl. discriminate.
  - destruct (String.eqb a "." || String.eqb a "..");
      [now apply IH|].
    destruct (Procpy.py_int int_other a) as [fd|]; [|now apply IH].
    destruct (readlink (fd_path a)) as [target|]; now apply IH.
Qed.

End Fds.

(** Every binding of the dictionary that [__getfds__] returns comes
    from a directory entry other than [.] and [..] whose name converts
    to the key and whose link reads as the value; entries that fail
    either step leave no trace, and an unreadable directory gives the
    empty dictionary. *)
Theorem getfds_bindings_sound (readlink : string -> option string)
        (listdir : string -> option (list string))
        (int_other : string -> option Z) (pid k : Z) (v : string) :
  Procpy.dict_get k (Procpy.__getfds__ readlink listdir int_other pid)
  = Some v ->
  exists es e,
    listdir ("/proc/" ++ PyStr.fmt_d false 0 pid ++ "/fd/") = Some es
    /\ In e es /\ e <> "." /\ e <> ".."
    /\ Procpy.py_int int_other e = Some k
    /\ readlink ("/proc/" ++ PyStr.fmt_d false 0 pid ++ "/fd/" ++ e)
       = Some v.
Proof.
  unfold Procpy.__getfds__.
  destruct (listdir _) as [es|]; [|discriminate].
  intros H. apply getfds_loop_sound in H.
  destruct H as [H|(e & H)]; [discriminate H|].
  exists es, e. split; [reflexivity | exact H].
Qed.

Lemma getfds_bindings_sound_witness :
  exists es e,
    SampleProc.listdir "/proc/42/fd/" = Some es
    /\ In e es /\ e <> "." /\ e <> ".."
    /\ Procpy.py_int SampleProc.int_other e = Some 1
    /\ SampleProc.readlink ("/proc/42/fd/" ++ e) = Some "/dev/null".
Proof.
  exact (getfds_bindings_sound SampleProc.readlink SampleProc.listdir
           SampleProc.int_other 42 1 "/dev/null" eq_refl).
Defined.

(** Every entry of the descriptor directory whose name is a run of
    digits and whose link can be read has its number as a key of the
    result. *)
Theorem getfds_digit_entries_present (readlink : string -> option string)
        (listdir : string -> option (list string))
        (int_other : string -> option Z) (pid : Z) (es : list string)
        (e : string) :
  listdir ("/proc/" ++ PyStr.fmt_d false 0 pid ++ "/fd/") = Some es ->
  In e es ->
  e <> "" -> all_chars Re.is_digit e = true ->
  readlink ("/proc/" ++ PyStr.fmt_d false 0 pid ++ "/fd/" ++ e) <> None ->
  Procpy.dict_get (PyStr.int e)
                  (Procpy.__getfds__ readlink listdir int_other pid)
  <> None.
Proof.
  intros Hl HIn Hne Hd Hr. unfold Procpy.__getfds__. rewrite Hl.
  now apply getfds_loop_complete.
Qed.

Lemma getfds_digit_entries_present_witness :
  Procpy.dict_get 0
    (Procpy.__getfds__ SampleProc.readlink SampleProc.listdir
                       SampleProc.int_other 42)
  <> None.
Proof.
  apply (getfds_digit_entries_present SampleProc.readlink SampleProc.listdir
           SampleProc.int_other 42 ["0"; "1"; "2"] "0" eq_refl).
  - simpl. tauto.
  - discriminate.
  - reflexivity.
  - discriminate.
Defined.

(* ================================================================== *)
(** * [procpy]: the identifiers found in [/proc] *)

Lemma py_int_digits (int_other : string -> option Z) (d : string) :
  Procpy.match_digits d = true -> all_chars Re.is_digit d = true ->
  Procpy.py_int int_other d = Some (PyStr.int d).
Proof.
  intros Hm Hd. unfold Procpy.py_int. rewrite Hd.
  destruct d as [|c d]; [discriminate Hm | reflexivity].
Qed.

Lemma getpids_loop_digits (int_other : string -> option Z)
      (ds : list string) : forall pids,
  (forall d, In d ds -> Procpy.match_digits d = true ->
             all_chars Re.is_digit d = true) ->
  Procpy.getpids_loop int_other ds pids
  = Some (pids ++ List.map PyStr.int
                     (List.filter Procpy.match_digits ds))%list.
Proof.
  induction ds as [|d ds IH]; intros pids Hall.
  - cbn. now rewrite app_nil_r.
  - cbn [Procpy.getpids_loop List.filter].
    assert (Hall' : forall d0, In d0 ds -> Procpy.match_digits d0 = true ->
                               all_chars Re.is_digit d0 = true)
      by (intros d0 H0; apply Hall; right; exact H0).
    destruct (Procpy.match_digits d) eqn:Hm.
    + rewrite (py_int_digits int_other d Hm (Hall d (or_introl eq_refl) Hm)).
      rewrite (IH _ Hall'). cbn [List.map]. now rewrite <- app_assoc.
    + exact (IH _ Hall').
Qed.

Lemma getpids_loop_failure (int_other : string -> option Z)
      (ds : list string) (d : string) : forall pids,
  In d ds -> Procpy.match_digits d = true ->
  Procpy.py_int int_other d = None ->
  Procpy.getpids_loop int_other ds pids = None.
Proof.
  induction ds as [|a ds IH]; intros pids HIn Hm Hint; [contradiction|].
  cbn [Procpy.getpids_loop].
  destruct HIn as [->|HIn].
  - now rewrite Hm, Hint.
  - destruct (Procpy.match_digits a); [|now apply IH].
    destruct (Procpy.py_int int_other a); [now apply IH | reflexivity].
Qed.

(** When every name of [/proc] that starts with a digit is made of
    digits only, [__getpids__] of the real-time table returns the
    numbers of those names in directory order and skips all other
    names. *)
Theorem RT_getpids_digit_names (listdir : string -> option (list string))
        (int_other : string -> option Z) (ds : list string) :
  listdir "/proc/" = Some ds ->
  (forall d, In d ds -> Procpy.match_digits d = true ->
             all_chars Re.is_digit d = true) ->
  Procpy.RT_getpids listdir int_other
  = Some (List.map PyStr.int (List.filter Procpy.match_digits ds)).
Proof.
  intros Hl Hall. unfold Procpy.RT_getpids. rewrite Hl.
  exact (getpids_loop_digits int_other ds [] Hall).
Qed.

Lemma RT_getpids_digit_names_witness :
  Procpy.RT_getpids SampleProc.listdir SampleProc.int_other = Some [1; 42].
Proof.
  apply (RT_getpids_digit_names SampleProc.listdir SampleProc.int_other
           ["1"; "42"; "self"; "meminfo"] eq_refl).
  intros d HIn Hm. cbn [In] in HIn.
  repeat (destruct HIn as [<-|HIn]); try contradiction;
    first [reflexivity | discriminate Hm].
Defined.

(** The filter of [__getpids__] looks at the first character only
    while the conversion reads the whole name: one name of [/proc]
    that starts with a digit and is not an integer makes the whole call
    fail, with no partial result. *)
Theorem RT_getpids_conversion_failure
        (listdir : string -> option (list string))
        (int_other : string -> option Z) (ds : list string) (d : string) :
  listdir "/proc/" = Some ds ->
  In d ds ->
  Procpy.match_digits d = true ->
  Procpy.py_int int_other d = None ->
  Procpy.RT_getpids listdir int_other = None.
Proof.
  intros Hl HIn Hm Hint. unfold Procpy.RT_getpids. rewrite Hl.
  exact (getpids_loop_failure int_other ds d [] HIn Hm Hint).
Qed.

Lemma RT_getpids_conversion_failure_witness :
  Procpy.RT_getpids SampleProc.listdir_odd SampleProc.int_other = None.
Proof.
  apply (RT_getpids_conversion_failure SampleProc.listdir_odd
           SampleProc.int_other ["1"; "42"; "9lives"; "self"] "9lives"
           eq_refl).
  - simpl. tauto.
  - reflexivity.
  - reflexivity.
Defined.

(* ================================================================== *)
(** * [procpy]: the class [Pid] *)

Section PidClass.

Variable read_lines : string -> option (list string).
Variable readlink : string -> option string.
Variable listdir : string -> option (list string).
Variable rp : Z -> option proc.
Variable int_other : string -> option Z.

Local Abbreviation Pid pid :=
  (Procpy.Pid_init read_lines readlink listdir rp int_other pid).


(** Every [Pid] that is built carries the provider's record for the
    identifier it was asked for; it has a parent exactly when that
    record names a positive parent identifier, and then the parent
    carries the provider's record for that parent identifier. *)
Theorem Pid_init_invariant (pid : Z) (obj : Procpy.PidObj) :
  Pid pid = Ret obj ->
  rp pid = Some (Procpy.base (Procpy.pid_info obj))
  /\ match Procpy.pid_parent obj with
     | Some par =>
         0 < ppid (Procpy.base (Procpy.pid_info obj))
         /\ rp (ppid (Procpy.base (Procpy.pid_info obj)))
            = Some (Procpy.base (Procpy.parent_info par))
     | None => ppid (Procpy.base (Procpy.pid_info obj)) <= 0
     end.
Proof.
  unfold Procpy.Pid_init, Procpy.Parent_init.
  destruct (rp pid) as [p|] eqn:Hp; [|discriminate].
  destruct (Z.gtb_spec (ppid p) 0) as [Hpos|Hle].
  - destruct (rp (ppid p)) as [q|] eqn:Hq; [|discriminate].
    intros H. injection H as <-. cbn.
    repeat split; [lia | exact Hq].
  - intros H. injection H as <-. cbn. repeat split. exact Hle.
Qed.

End PidClass.

Lemma Pid_init_invariant_witness :
  exists obj par,
    Procpy.Pid_init SampleProc.read_lines SampleProc.readlink
                    SampleProc.listdir (Sample.lookup Sample.table_A)
                    SampleProc.int_other 42 = Ret obj
    /\ Procpy.pid_parent obj = Some par
    /\ Sample.lookup Sample.table_A 42
       = Some (Procpy.base (Procpy.pid_info obj)).
Proof.
  eexists. eexists. split; [reflexivity|].
  split; [reflexivity|].
  exact (proj1 (Pid_init_invariant SampleProc.read_lines SampleProc.readlink
                  SampleProc.listdir (Sample.lookup Sample.table_A)
                  SampleProc.int_other 42 _ eq_refl)).
Defined.
